(** * The labeling pipeline of ml.school: [pipelines/labeling.py]

    A shallow embedding of the [Labeling] flow and of its routine
    [_label_sagemaker_data], which turns the data captured by a hosted
    model into fake ground-truth records and uploads them to S3.

    Python values are modelled as follows.
    - [str] is a sequence of Unicode code points: [list N].
    - The collected [DataFrame] is the list of its rows, in index order;
      only the columns the routine reads ([event_id], [prediction]) are
      kept, both holding strings (no missing values).
    - [float] values are only compared, never computed with: the quality and
      the draws of [random.random()] are exact rationals ([Q]).
    - The collaborators (random generator, clock, data loader, S3 client)
      live in an explicit [world] threaded through a state-and-error monad;
      every call to a collaborator is appended to the world's [log]. *)

From Stdlib Require Import List NArith ZArith QArith Bool Ascii String Lia.
From Stdlib Require Import Sorted Permutation DecimalString DecimalPos DecimalN.
Import ListNotations.

Local Open Scope list_scope.
Local Open Scope N_scope.
Set Warnings "-register-all".

(** ** Python strings *)

Module PyStr.

Definition pystr : Type := list N.

(** ASCII literals of the source, written as Rocq strings. *)
Definition py (s : string) : pystr :=
  map N_of_ascii (list_ascii_of_string s).

Definition eqb (a b : pystr) : bool :=
  if list_eq_dec N.eq_dec a b then true else false.

(** [s.startswith(prefix)] *)
Fixpoint startswith (s prefix : pystr) : bool :=
  match prefix, s with
  | [], _ => true
  | _ :: _, [] => false
  | p :: prefix', c :: s' => (c =? p) && startswith s' prefix'
  end.

(** [s.split(sep)] for a one-character separator: every occurrence of the
    separator ends a field, so the result is never empty. *)
Fixpoint split (sep : N) (s : pystr) : list pystr :=
  match s with
  | [] => [[]]
  | c :: s' =>
      if c =? sep then [] :: split sep s'
      else match split sep s' with
           | [] => [[c]]
           | field :: fields => (c :: field) :: fields
           end
  end.

(** [sep.join(parts)] *)
Fixpoint join (sep : pystr) (parts : list pystr) : pystr :=
  match parts with
  | [] => []
  | [p] => p
  | p :: rest => p ++ sep ++ join sep rest
  end.

(** The order of [str]: lexicographic on code points. *)
Fixpoint compare (a b : pystr) : comparison :=
  match a, b with
  | [], [] => Eq
  | [], _ :: _ => Lt
  | _ :: _, [] => Gt
  | x :: a', y :: b' =>
      match N.compare x y with
      | Eq => compare a' b'
      | c => c
      end
  end.

Definition lt (a b : pystr) : Prop := compare a b = Lt.

(** Decimal rendering of a number, as [str(n)] or [%d]. *)
Definition decimal (n : N) : pystr :=
  py (NilZero.string_of_uint (N.to_uint n)).

End PyStr.
Import PyStr.

(** ** [json.dumps] on the values the routine builds

    The record handed to [json.dumps] is a [dict] of strings, lists and
    dicts.  The defaults apply: [ensure_ascii=True], item separator [", "],
    key separator [": "], keys in insertion order. *)

Module Json.

Inductive json : Type :=
| JString (s : pystr)
| JList (items : list json)
| JDict (items : list (pystr * json)).

Definition hex_digit (d : N) : N :=
  if d <? 10 then 48 + d else 87 + d.

(** ['{0:04x}'.format(n)] for [n < 0x10000] *)
Definition hex4 (n : N) : pystr :=
  [hex_digit (n / 4096 mod 16); hex_digit (n / 256 mod 16);
   hex_digit (n / 16 mod 16); hex_digit (n mod 16)].

(** [\uXXXX] *)
Definition u_escape (n : N) : pystr := 92 :: 117 :: hex4 n.

(** One character of [py_encode_basestring_ascii]: the two-character
    escapes of [ESCAPE_DCT], printable ASCII as it is, everything else as
    [\uXXXX], with a surrogate pair above the basic plane. *)
Definition escape_char (c : N) : pystr :=
  if c =? 34 then [92; 34]
  else if c =? 92 then [92; 92]
  else if c =? 10 then [92; 110]
  else if c =? 13 then [92; 114]
  else if c =? 9 then [92; 116]
  else if c =? 8 then [92; 98]
  else if c =? 12 then [92; 102]
  else if (32 <=? c) && (c <=? 126) then [c]
  else if c <? 65536 then u_escape c
  else
    let n := c - 65536 in
    let s1 := N.lor 55296 (N.land (N.shiftr n 10) 1023) in
    let s2 := N.lor 56320 (N.land n 1023) in
    u_escape s1 ++ u_escape s2.

Definition encode_basestring_ascii (s : pystr) : pystr :=
  34 :: flat_map escape_char s ++ [34].

Fixpoint dumps (v : json) : pystr :=
  match v with
  | JString s => encode_basestring_ascii s
  | JList items =>
      py "[" ++ join (py ", ") (map dumps items) ++ py "]"
  | JDict items =>
      py "{" ++
      join (py ", ")
        (map (fun kv => encode_basestring_ascii (fst kv) ++ py ": " ++ dumps (snd kv))
             items) ++
      py "}"
  end.

End Json.
Import Json.

(** Expected JSON texts are written with ['] standing for the double quote. *)
Definition jsontext (s : string) : pystr :=
  map (fun c => if c =? 39 then 34 else c) (py s).

(** ** Exceptions

    The classes the flow raises itself ([RuntimeError], [ValueError]), the
    one an out-of-range subscript raises ([IndexError]), and the built-in
    classes a malformed value or document raises in the collaborators, with
    their place in Python's hierarchy. *)

Inductive exn_class : Type :=
| Exception | RuntimeError | ValueError | JSONDecodeError
| LookupError | IndexError | KeyError | TypeError.

Definition exn_class_eqb (c d : exn_class) : bool :=
  match c, d with
  | Exception, Exception | RuntimeError, RuntimeError
  | ValueError, ValueError | JSONDecodeError, JSONDecodeError
  | LookupError, LookupError | IndexError, IndexError
  | KeyError, KeyError | TypeError, TypeError => true
  | _, _ => false
  end.

(** The class followed by its base classes. *)
Definition mro (c : exn_class) : list exn_class :=
  match c with
  | Exception => [Exception]
  | RuntimeError => [RuntimeError; Exception]
  | ValueError => [ValueError; Exception]
  | JSONDecodeError => [JSONDecodeError; ValueError; Exception]
  | LookupError => [LookupError; Exception]
  | IndexError => [IndexError; LookupError; Exception]
  | KeyError => [KeyError; LookupError; Exception]
  | TypeError => [TypeError; Exception]
  end.

Record exn : Type := Exn { exn_cls : exn_class; exn_msg : pystr }.

(** [isinstance(e, c)]: what an [except c] clause catches. *)
Definition isinstance (e : exn) (c : exn_class) : bool :=
  existsb (exn_class_eqb c) (mro (exn_cls e)).

(** ** The collected data and [DataFrame.groupby] *)

Record row : Type := Row { event_id : pystr; prediction : pystr }.

Definition DataFrame : Type := list row.

(** [data.empty] *)
Definition empty (data : DataFrame) : bool :=
  match data with [] => true | _ :: _ => false end.

Module Pandas.

(** Insertion of a key into an ascending list without duplicates. *)
Fixpoint insert_key (k : pystr) (keys : list pystr) : list pystr :=
  match keys with
  | [] => [k]
  | h :: t =>
      match PyStr.compare k h with
      | Lt => k :: keys
      | Eq => keys
      | Gt => h :: insert_key k t
      end
  end.

(** The group keys: the distinct values of the column, sorted
    ([sort=True] is the default of [groupby]). *)
Definition group_keys (data : DataFrame) : list pystr :=
  fold_right insert_key [] (map event_id data).

(** The rows of one group, in the order of the frame. *)
Definition get_group (data : DataFrame) (k : pystr) : DataFrame :=
  filter (fun r => PyStr.eqb (event_id r) k) data.

(** Iterating over [data.groupby("event_id")] yields, key by key in
    ascending order, the key and the sub-frame of its rows. *)
Definition groupby (data : DataFrame) : list (pystr * DataFrame) :=
  map (fun k => (k, get_group data k)) (group_keys data).

End Pandas.
Import Pandas.

(** ** The world: random generator, clock, datastore and S3 *)

(** The generator is known by the outcomes of its successive calls: a tape
    of raw draws and a cursor; each call of the [random] module reads the
    cell under the cursor and moves on.  Every sequence of outcomes is the
    behaviour of some tape. *)
Record rng_state : Type := Rng { tape : nat -> N; cursor : nat }.

Record datetime : Type :=
  DateTime { year : N; month : N; day : N; hour : N; minute : N; second : N }.

(** The calls made to the collaborators. *)
Inductive event : Type :=
| BotoClient (service : pystr)
| LoadCollected (datastore_uri ground_truth_uri : pystr)
| UtcNow
| PutObject (Body Bucket Key : pystr).

Record world : Type := World {
  rng : rng_state;
  clock : datetime;
  (** what [load_unlabeled_collected_data] answers for a datastore location
      and a ground-truth location: a frame, or the exception it raises *)
  collected : pystr -> pystr -> exn + DataFrame;
  log : list event
}.

Definition with_rng (g : rng_state) (w : world) : world :=
  {| rng := g; clock := clock w; collected := collected w; log := log w |}.

Definition record_event (e : event) (w : world) : world :=
  {| rng := rng w; clock := clock w; collected := collected w;
     log := log w ++ [e] |}.

(** State and exceptions. *)
Definition M (A : Type) : Type := world -> (exn + A) * world.

Definition ret {A} (a : A) : M A := fun w => (inr a, w).

Definition raise {A} (e : exn) : M A := fun w => (inl e, w).

Definition bind {A B} (c : M A) (k : A -> M B) : M B :=
  fun w =>
    match c w with
    | (inl e, w') => (inl e, w')
    | (inr a, w') => k a w'
    end.

Notation "x <- c ;; k" := (bind c (fun x => k))
  (at level 61, c at next level, right associativity).

(** [for x in xs: ys.append(body(x))] *)
Fixpoint for_each {A B} (xs : list A) (body : A -> M B) : M (list B) :=
  match xs with
  | [] => ret []
  | x :: rest =>
      y <- body x ;;
      ys <- for_each rest body ;;
      ret (y :: ys)
  end.

Definition two_pow_53 : positive := 9007199254740992.

(** [random.random()]: a float [k / 2**53] with [0 <= k < 2**53]. *)
Definition random_random : M Q :=
  fun w =>
    let g := rng w in
    let k := tape g (cursor g) mod Npos two_pow_53 in
    (inr (Z.of_N k # two_pow_53),
     with_rng {| tape := tape g; cursor := S (cursor g) |} w).

(** [random.choice(seq)]: an element of [seq] at a drawn index. *)
Definition random_choice {A} (seq : list A) : M A :=
  fun w =>
    match seq with
    | [] => (inl (Exn IndexError (py "Cannot choose from an empty sequence")), w)
    | x0 :: _ =>
        let g := rng w in
        let i := tape g (cursor g) mod N.of_nat (List.length seq) in
        (inr (nth (N.to_nat i) seq x0),
         with_rng {| tape := tape g; cursor := S (cursor g) |} w)
    end.

(** [boto3.client(service)] *)
Definition boto3_client (service : pystr) : M unit :=
  fun w => (inr tt, record_event (BotoClient service) w).

(** [load_unlabeled_collected_data(s3_client, datastore_uri, ground_truth_uri)] *)
Definition load_unlabeled_collected_data (datastore ground_truth : pystr)
  : M DataFrame :=
  fun w =>
    (collected w datastore ground_truth,
     record_event (LoadCollected datastore ground_truth) w).

(** [datetime.now(tz=timezone.utc)] *)
Definition datetime_now : M datetime :=
  fun w => (inr (clock w), record_event UtcNow w).

(** [s3_client.put_object(Body=..., Bucket=..., Key=...)] *)
Definition put_object (Body Bucket Key : pystr) : M unit :=
  fun w => (inr tt, record_event (PutObject Body Bucket Key) w).

(** [x < q] on floats. *)
Definition Qltb (x q : Q) : bool :=
  (Qnum x * Zpos (Qden q) <? Qnum q * Zpos (Qden x))%Z.

(** Two digits, zero-padded: [%m], [%d], [%H], [%M], [%S]. *)
Definition pad2 (n : N) : pystr :=
  if n <? 10 then 48 :: decimal n else decimal n.

(** [f"{t:%Y/%m/%d/%H/%M%S}"]; the year of a present-day clock has four
    digits, which [%Y] prints as they are. *)
Definition strftime (t : datetime) : pystr :=
  decimal (year t) ++ py "/" ++ pad2 (month t) ++ py "/" ++ pad2 (day t)
  ++ py "/" ++ pad2 (hour t) ++ py "/" ++ pad2 (minute t) ++ pad2 (second t).

(** ** The flow *)

Record Labeling : Type := {
  datastore_uri : pystr;            (* required *)
  ground_truth_uri : option pystr;  (* not required: [None] when not given *)
  ground_truth_quality : Q          (* default 0.8 *)
}.

Definition labels : list pystr := [py "Adelie"; py "Chinstrap"; py "Gentoo"].

(** The label of one row (lines 111-115): the draw of [random.random()]
    comes first, [random.choice] is only called when the draw is not below
    the quality. *)
Definition label_row (quality : Q) (r : row) : M pystr :=
  x <- random_random ;;
  if Qltb x quality then ret (prediction r) else random_choice labels.

(** The [dict] of lines 117-130. *)
Definition ground_truth_record (event_id : pystr) (predictions : list pystr)
  : json :=
  JDict [
    (py "groundTruthData",
      JDict [ (py "data", JList (map JString predictions));
              (py "encoding", JString (py "CSV")) ]);
    (py "eventMetadata", JDict [ (py "eventId", JString event_id) ]);
    (py "eventVersion", JString (py "0"))
  ].

(** The body of the loop over the groups (lines 109-132). *)
Definition label_group (quality : Q) (g : pystr * DataFrame) : M pystr :=
  predictions <- for_each (snd g) (label_row quality) ;;
  ret (dumps (ground_truth_record (fst g) predictions)).

Definition _label_sagemaker_data (self : Labeling) : M unit :=
  match ground_truth_uri self with
  | None | Some [] =>
      raise (Exn RuntimeError (py "The 'ground-truth-uri' parameter is required."))
  | Some location =>
      _ <- boto3_client (py "s3") ;;
      data <- load_unlabeled_collected_data (datastore_uri self) location ;;
      if empty data then ret tt
      else
        records <- for_each (groupby data)
                     (label_group (ground_truth_quality self)) ;;
        let ground_truth_payload := join [10] records in
        upload_time <- datetime_now ;;
        let uri :=
          join (py "/") (skipn 3 (split 47 location))
          ++ strftime upload_time ++ py ".jsonl" in
        match nth_error (split 47 location) 2 with
        | None => raise (Exn IndexError (py "list index out of range"))
        | Some bucket => put_object ground_truth_payload bucket uri
        end
  end.

(** The [label] step; [self.next(self.end)] only tells the orchestrator
    which step follows. *)
Definition label (self : Labeling) : M unit :=
  if startswith (datastore_uri self) (py "s3://") then
    _label_sagemaker_data self
  else if startswith (datastore_uri self) (py "sqlite://") then
    ret tt
  else
    raise (Exn ValueError
      (py ("Invalid datastore location. Must be an S3 location in the "
           ++ "format `s3://bucket/prefix` or a SQLite database file in the format "
           ++ "`sqlite:///path/to/database.db`"))).

(** ** The steps of the flow and their order *)

Inductive step : Type := StartStep | LabelStep | EndStep.

(** [start]: [self.next(self.label)] *)
Definition start (self : Labeling) : M (option step) := ret (Some LabelStep).

(** [end]: [pass]; no step follows. *)
Definition end_ (self : Labeling) : M (option step) := ret None.

(** A step and the step its [self.next] names. *)
Definition run_step (s : step) (self : Labeling) : M (option step) :=
  match s with
  | StartStep => start self
  | LabelStep => _ <- label self ;; ret (Some EndStep)
  | EndStep => end_ self
  end.

(** The orchestrator runs the steps one after the other from [s], each
    followed by the step it names; the result is the list of the steps that
    ran, or [None] when [fuel] steps did not reach the last one. *)
Fixpoint run_steps (fuel : nat) (s : step) (self : Labeling)
  : M (option (list step)) :=
  match fuel with
  | O => ret None
  | S fuel' =>
      next <- run_step s self ;;
      match next with
      | None => ret (Some [s])
      | Some s' =>
          rest <- run_steps fuel' s' self ;;
          ret (option_map (cons s) rest)
      end
  end.

(** ** Running the flow on concrete worlds *)

Module Demo.

Definition two_rows : DataFrame :=
  [ Row (py "a") (py "Adelie"); Row (py "a") (py "Gentoo") ].

Definition mixed_rows : DataFrame :=
  [ Row (py "b") (py "Gentoo"); Row (py "a") (py "Adelie");
    Row (py "b") (py "Adelie"); Row (py "c") (py "Torgersen") ].

Definition march_9 : datetime :=
  {| year := 2024; month := 3; day := 9; hour := 7; minute := 5; second := 2 |}.

(** A world whose loader always answers [data] and whose tape holds
    [n * step] in cell [n]. *)
Definition world_of (data : DataFrame) (step : N) : world :=
  {| rng := {| tape := fun n => N.of_nat n * step; cursor := 0 |};
     clock := march_9;
     collected := fun _ _ => inr data;
     log := [] |}.

Definition ground_truth : pystr := py "s3://bucket/ground-truth/".

Definition flow (location : option pystr) (quality : Q) : Labeling :=
  {| datastore_uri := py "s3://bucket/datastore";
     ground_truth_uri := location;
     ground_truth_quality := quality |}.

End Demo.

(** ** The vocabulary of the properties *)

(** The distinct values of the [event_id] column. *)
Definition distinct_event_ids (data : DataFrame) : list pystr :=
  nodup (list_eq_dec N.eq_dec) (map event_id data).

(** The distinct values of a column in the order of their first
    appearance. *)
Fixpoint appearance (keys : list pystr) : list pystr :=
  match keys with
  | [] => []
  | k :: rest => k :: filter (fun x => negb (PyStr.eqb x k)) (appearance rest)
  end.

(** The characters from the space to the tilde. *)
Definition printable (c : N) : Prop := 32 <= c <= 126.

(** A step that only moves the random generator on. *)
Definition frame (w w' : world) : Prop :=
  clock w' = clock w /\ collected w' = collected w /\ log w' = log w.

(** The label [p] given to row [r]: the row's own prediction, or one of
    the three labels. *)
Definition keeps_or_draws (r : row) (p : pystr) : Prop :=
  p = prediction r \/ In p labels.

(** The line written for an event id and its list of labels. *)
Definition record_line (l : pystr * list pystr) : pystr :=
  dumps (ground_truth_record (fst l) (snd l)).

(** The payload for a list of event ids with their labels: one line per
    record, joined by newlines (line 134). *)
Definition payload_of (labelled : list (pystr * list pystr)) : pystr :=
  join [10] (map record_line labelled).

(** The groups with the predictions the hosted model made. *)
Definition original_predictions (data : DataFrame) : list (pystr * list pystr) :=
  map (fun g => (fst g, map prediction (snd g))) (groupby data).

(** The key of line 136-139 for a location and an upload time. *)
Definition destination_key (location : pystr) (t : datetime) : pystr :=
  join (py "/") (skipn 3 (split 47 location)) ++ strftime t ++ py ".jsonl".

(** The run builds the payload [body] and goes on to upload it: it creates
    the client, loads the data, reads the clock and puts [body] in the
    bucket named by the third field of the location, under the destination
    key; a location without a third field makes the subscript fail after the
    clock was read, and nothing is put. *)
Definition emits (self : Labeling) (w : world) (location body : pystr) : Prop :=
  let r := _label_sagemaker_data self w in
  match nth_error (split 47 location) 2 with
  | Some bucket =>
      fst r = inr tt /\
      log (snd r) =
        log w ++ [ BotoClient (py "s3");
                   LoadCollected (datastore_uri self) location;
                   UtcNow;
                   PutObject body bucket (destination_key location (clock w)) ]
  | None =>
      fst r = inl (Exn IndexError (py "list index out of range")) /\
      log (snd r) =
        log w ++ [ BotoClient (py "s3");
                   LoadCollected (datastore_uri self) location;
                   UtcNow ]
  end.

(** The line of a record, spelled out. *)
Definition line_text (event_id : pystr) (predictions : list pystr) : pystr :=
  jsontext "{'groundTruthData': {'data': ["
  ++ join (py ", ") (map encode_basestring_ascii predictions)
  ++ jsontext "], 'encoding': 'CSV'}, 'eventMetadata': {'eventId': "
  ++ encode_basestring_ascii event_id
  ++ jsontext "}, 'eventVersion': '0'}".

(** A JSON text without the spaces that stand outside its strings. *)
Fixpoint compact (in_string : bool) (s : pystr) : pystr :=
  match s with
  | [] => []
  | c :: s' =>
      if c =? 34 then c :: compact (negb in_string) s'
      else if in_string && (c =? 92) then
        match s' with
        | [] => [c]
        | d :: s'' => c :: d :: compact in_string s''
        end
      else if negb in_string && (c =? 32) then compact in_string s'
      else c :: compact in_string s'
  end.

(** The error of line 92-93. *)
Definition ground_truth_required : exn :=
  Exn RuntimeError (py "The 'ground-truth-uri' parameter is required.").

(** A step that leaves the clock, the datastore and the log alone, keeps
    the tape and moves the cursor on by at least [lo] and at most [hi]
    cells. *)
Definition advances (lo hi : nat) (w w' : world) : Prop :=
  frame w w'
  /\ tape (rng w') = tape (rng w)
  /\ (cursor (rng w) + lo <= cursor (rng w') <= cursor (rng w) + hi)%nat.

(** The number of rows in a list of groups. *)
Definition rows_of (groups : list (pystr * DataFrame)) : nat :=
  list_sum (map (fun g => List.length (snd g)) groups).

(** A time of day on a day of a four-digit year, as a clock reports it. *)
Definition calendar_time (t : datetime) : Prop :=
  1000 <= year t <= 9999 /\ 1 <= month t <= 12 /\ 1 <= day t <= 31
  /\ hour t <= 23 /\ minute t <= 59 /\ second t <= 59.

(** The events of a whole run, in the order of the calls. *)
Definition upload_events (self : Labeling) (location : pystr) (t : datetime)
    (body bucket : pystr) : list event :=
  [ BotoClient (py "s3");
    LoadCollected (datastore_uri self) location;
    UtcNow;
    PutObject body bucket (destination_key location t) ].

(** * Properties *)

(** ** The model at work *)

Example split_uri :
  split 47 (py "s3://bucket/a/b") = [py "s3:"; []; py "bucket"; py "a"; py "b"].
Proof. reflexivity. Qed.

Example decimal_2024 : decimal 2024 = py "2024".
Proof. reflexivity. Qed.

Example dumps_nested :
  dumps (JDict [(py "k", JList [JString (py "a"); JString (py "b")])])
  = jsontext "{'k': ['a', 'b']}".
Proof. reflexivity. Qed.

Example dumps_escapes :
  dumps (JString [10; 233; 128512]) = jsontext "'\n\u00e9\ud83d\ude00'".
Proof. reflexivity. Qed.

(** A run at the default quality: the fourth draw is not below 0.8 and the
    prediction "Torgersen" of event "c" is replaced by a drawn label. *)
Example run_at_default_quality :
  let r := _label_sagemaker_data
             (Demo.flow (Some Demo.ground_truth) (4 # 5))
             (Demo.world_of Demo.mixed_rows 3000000000000000) in
  fst r = inr tt
  /\ cursor (rng (snd r)) = 5%nat
  /\ log (snd r) =
       [ BotoClient (py "s3");
         LoadCollected (py "s3://bucket/datastore") Demo.ground_truth;
         UtcNow;
         PutObject
           (payload_of [ (py "a", [py "Adelie"]);
                         (py "b", [py "Gentoo"; py "Adelie"]);
                         (py "c", [py "Adelie"]) ])
           (py "bucket")
           (py "ground-truth/2024/03/09/07/0502.jsonl") ].
Proof. cbv zeta. repeat split; vm_compute; reflexivity. Qed.

(** A location that is no S3 location has no bucket: the subscript fails
    once the labels are made and the clock is read. *)
Example run_without_bucket :
  let r := _label_sagemaker_data
             (Demo.flow (Some (py "bucket")) (4 # 5))
             (Demo.world_of Demo.mixed_rows 3000000000000000) in
  fst r = inl (Exn IndexError (py "list index out of range"))
  /\ log (snd r) =
       [ BotoClient (py "s3");
         LoadCollected (py "s3://bucket/datastore") (py "bucket");
         UtcNow ].
Proof. cbv zeta. split; vm_compute; reflexivity. Qed.

(** With a location that ends in a slash the key has the documented
    format. *)
Example destination_key_with_trailing_slash :
  destination_key (py "s3://bucket/ground-truth/") Demo.march_9
  = py "ground-truth/2024/03/09/07/0502.jsonl".
Proof. reflexivity. Qed.

(** ** Strings: order, splitting and joining *)

Section StringOrder.

Lemma compare_eq_iff (a b : pystr) : PyStr.compare a b = Eq <-> a = b.
Proof.
  revert b; induction a as [|x a IH]; intros [|y b]; simpl;
    try (split; [discriminate | discriminate]); try tauto.
  destruct (N.compare_spec x y) as [E|L|G].
  - subst y. rewrite IH. split; [intros ->; reflexivity | congruence].
  - split; [discriminate | intros [=]; lia].
  - split; [discriminate | intros [=]; lia].
Qed.

Lemma compare_refl (a : pystr) : PyStr.compare a a = Eq.
Proof. now apply compare_eq_iff. Qed.

Lemma compare_antisym (a b : pystr) :
  PyStr.compare b a = CompOpp (PyStr.compare a b).
Proof.
  revert b; induction a as [|x a IH]; intros [|y b]; simpl; try reflexivity.
  rewrite (N.compare_antisym x y).
  destruct (N.compare x y); simpl; auto.
Qed.

Lemma lt_irrefl (a : pystr) : ~ PyStr.lt a a.
Proof. unfold PyStr.lt. rewrite compare_refl. discriminate. Qed.

Lemma lt_trans (a b c : pystr) : PyStr.lt a b -> PyStr.lt b c -> PyStr.lt a c.
Proof.
  unfold PyStr.lt. revert b c.
  induction a as [|x a IH]; intros [|y b] [|z c]; simpl; try congruence.
  destruct (N.compare_spec x y) as [E|L|G]; try discriminate.
  - subst y. destruct (N.compare x z); auto. apply IH.
  - intros _. destruct (N.compare_spec y z) as [E|L'|G]; try discriminate.
    + subst z. intros _. now apply N.compare_lt_iff in L as ->.
    + intros _. assert (x < z) as ->%N.compare_lt_iff by lia. reflexivity.
Qed.

Lemma eqb_eq (a b : pystr) : PyStr.eqb a b = true <-> a = b.
Proof.
  unfold PyStr.eqb. destruct (list_eq_dec N.eq_dec a b); split; congruence.
Qed.

End StringOrder.

Section SplitJoin.

Variable sep : N.

Lemma split_without_sep (s : pystr) : ~ In sep s -> split sep s = [s].
Proof.
  induction s as [|c s IH]; simpl; intros H; [reflexivity|].
  destruct (N.eqb_spec c sep) as [->|_]; [tauto|].
  rewrite IH by tauto. reflexivity.
Qed.

Lemma split_app_sep (s rest : pystr) :
  ~ In sep s -> split sep (s ++ sep :: rest) = s :: split sep rest.
Proof.
  induction s as [|c s IH]; simpl; intros H.
  - now rewrite N.eqb_refl.
  - destruct (N.eqb_spec c sep) as [->|_]; [tauto|].
    rewrite IH by tauto. reflexivity.
Qed.

(** Splitting a join gives the parts back, when no part holds the
    separator and there is at least one part. *)
Lemma split_join (parts : list pystr) :
  parts <> [] -> Forall (fun p => ~ In sep p) parts ->
  split sep (join [sep] parts) = parts.
Proof.
  induction parts as [|p parts IH]; [congruence|].
  intros _ H. inversion H as [|? ? Hp Hrest]; subst.
  destruct parts as [|p' parts].
  - simpl. now apply split_without_sep.
  - change (join [sep] (p :: p' :: parts))
      with (p ++ sep :: join [sep] (p' :: parts)).
    rewrite split_app_sep by assumption.
    rewrite IH; [reflexivity | discriminate | assumption].
Qed.

Lemma join_Forall (P : N -> Prop) (glue : pystr) (parts : list pystr) :
  Forall P glue -> Forall (Forall P) parts -> Forall P (join glue parts).
Proof.
  intros Hg. induction 1 as [|p parts Hp Hparts IH]; simpl; [constructor|].
  destruct parts; [assumption|].
  repeat (apply Forall_app; split); assumption.
Qed.

End SplitJoin.

(** ** [groupby]: the keys are the distinct event ids, in ascending order *)

Section GroupKeys.

Lemma insert_key_In (k x : pystr) (keys : list pystr) :
  In x (insert_key k keys) <-> x = k \/ In x keys.
Proof.
  induction keys as [|h t IH]; simpl; [intuition|].
  destruct (PyStr.compare k h) eqn:E; simpl.
  - apply compare_eq_iff in E. subst h. intuition.
  - intuition.
  - rewrite IH. intuition.
Qed.

Lemma insert_key_sorted (k : pystr) (keys : list pystr) :
  StronglySorted PyStr.lt keys -> StronglySorted PyStr.lt (insert_key k keys).
Proof.
  induction 1 as [|h t Ht IH Hh]; simpl.
  - repeat constructor.
  - destruct (PyStr.compare k h) eqn:E.
    + now constructor.
    + constructor; [now constructor|].
      constructor; [exact E|].
      eapply Forall_impl; [|exact Hh]. intros x Hx. eapply lt_trans; eauto.
    + constructor; [assumption|].
      apply Forall_forall. intros x [->|Hx]%insert_key_In.
      * unfold PyStr.lt. rewrite compare_antisym, E. reflexivity.
      * rewrite Forall_forall in Hh. auto.
Qed.

Lemma group_keys_sorted (data : DataFrame) :
  StronglySorted PyStr.lt (group_keys data).
Proof.
  unfold group_keys. induction (map event_id data); simpl.
  - constructor.
  - now apply insert_key_sorted.
Qed.

Lemma group_keys_In (data : DataFrame) (k : pystr) :
  In k (group_keys data) <-> In k (map event_id data).
Proof.
  unfold group_keys. induction (map event_id data) as [|x l IH]; simpl.
  - tauto.
  - rewrite insert_key_In, IH. intuition.
Qed.

Lemma sorted_NoDup (keys : list pystr) :
  StronglySorted PyStr.lt keys -> NoDup keys.
Proof.
  induction 1 as [|h t Ht IH Hh]; constructor; [|assumption].
  intros Hin. rewrite Forall_forall in Hh. exact (lt_irrefl h (Hh h Hin)).
Qed.

Lemma group_keys_distinct (data : DataFrame) :
  Permutation (group_keys data) (distinct_event_ids data).
Proof.
  apply NoDup_Permutation.
  - apply sorted_NoDup, group_keys_sorted.
  - apply NoDup_nodup.
  - intros k. unfold distinct_event_ids. now rewrite group_keys_In, nodup_In.
Qed.

Lemma group_keys_nonempty (data : DataFrame) :
  data <> [] -> group_keys data <> [].
Proof.
  destruct data as [|r data]; [congruence|]. intros _ E.
  assert (H : In (event_id r) (group_keys (r :: data)))
    by (apply group_keys_In; now left).
  rewrite E in H. exact H.
Qed.

End GroupKeys.

(** ** [json.dumps] writes printable ASCII only *)

Section JsonText.

Lemma hex_digit_printable (d : N) : d < 16 -> printable (hex_digit d).
Proof.
  unfold printable, hex_digit. intros H.
  destruct (N.ltb_spec d 10); lia.
Qed.

Lemma u_escape_printable (n : N) : Forall printable (u_escape n).
Proof.
  unfold u_escape, hex4.
  repeat constructor; try (unfold printable; lia);
    apply hex_digit_printable, N.mod_lt; discriminate.
Qed.

Lemma escape_char_printable (c : N) : Forall printable (escape_char c).
Proof.
  unfold escape_char.
  repeat match goal with
         | |- context [if ?b =? ?k then _ else _] =>
             destruct (N.eqb_spec b k);
             [repeat constructor; unfold printable; lia|]
         end.
  destruct (N.leb_spec 32 c); destruct (N.leb_spec c 126); cbn [andb].
  1: repeat (constructor; try assumption).
  all: destruct (N.ltb_spec c 65536);
    [apply u_escape_printable
    | apply Forall_app; split; apply u_escape_printable].
Qed.

Lemma encode_basestring_ascii_printable (s : pystr) :
  Forall printable (encode_basestring_ascii s).
Proof.
  unfold encode_basestring_ascii. constructor; [unfold printable; lia|].
  apply Forall_app; split; [|repeat constructor; unfold printable; lia].
  apply Forall_flat_map, Forall_forall. intros c _.
  apply escape_char_printable.
Qed.

(** Induction on JSON values, with the hypothesis on every item. *)
Lemma json_induction (P : json -> Prop) :
  (forall s, P (JString s)) ->
  (forall items, Forall P items -> P (JList items)) ->
  (forall items, Forall (fun kv => P (snd kv)) items -> P (JDict items)) ->
  forall v, P v.
Proof.
  intros Hs Hl Hd. fix IH 1. intros [s|items|items].
  - apply Hs.
  - apply Hl. induction items as [|v items IHitems]; constructor;
      [apply IH | exact IHitems].
  - apply Hd. induction items as [|kv items IHitems]; constructor;
      [apply IH | exact IHitems].
Qed.

Lemma py_printable (glue : string) :
  forallb (fun c => (32 <=? c) && (c <=? 126)) (py glue) = true ->
  Forall printable (py glue).
Proof.
  rewrite forallb_forall, Forall_forall. intros H c Hc.
  specialize (H c Hc). apply andb_true_iff in H as [H1 H2].
  apply N.leb_le in H1, H2. split; assumption.
Qed.

Lemma dumps_JList (items : list json) :
  dumps (JList items) = py "[" ++ join (py ", ") (map dumps items) ++ py "]".
Proof. reflexivity. Qed.

Lemma dumps_JDict (items : list (pystr * json)) :
  dumps (JDict items)
  = py "{" ++
    join (py ", ")
      (map (fun kv => encode_basestring_ascii (fst kv) ++ py ": " ++ dumps (snd kv))
           items) ++
    py "}".
Proof. reflexivity. Qed.

Lemma dumps_printable (v : json) : Forall printable (dumps v).
Proof.
  induction v as [s|items IH|items IH] using json_induction;
    [|rewrite dumps_JList|rewrite dumps_JDict].
  - apply encode_basestring_ascii_printable.
  - apply Forall_app; split; [now apply py_printable|].
    apply Forall_app; split; [|now apply py_printable].
    apply join_Forall; [now apply py_printable|].
    apply Forall_map. exact IH.
  - apply Forall_app; split; [now apply py_printable|].
    apply Forall_app; split; [|now apply py_printable].
    apply join_Forall; [now apply py_printable|].
    apply Forall_map. eapply Forall_impl; [|exact IH].
    intros kv Hkv. apply Forall_app; split;
      [apply encode_basestring_ascii_printable|].
    apply Forall_app; split; [now apply py_printable | exact Hkv].
Qed.

Lemma printable_no_newline (s : pystr) : Forall printable s -> ~ In 10 s.
Proof.
  rewrite Forall_forall. intros H Hin. specialize (H _ Hin).
  unfold printable in H. lia.
Qed.

End JsonText.

(** ** The labelling loops *)

Section Loops.

Lemma frame_refl (w : world) : frame w w.
Proof. repeat split. Qed.

Lemma frame_trans (w1 w2 w3 : world) : frame w1 w2 -> frame w2 w3 -> frame w1 w3.
Proof. unfold frame. intuition congruence. Qed.

Lemma frame_with_rng (g : rng_state) (w : world) : frame w (with_rng g w).
Proof. repeat split. Qed.

(** A loop whose body always returns and relates each item to its result
    returns the list of the results, item by item. *)
Lemma for_each_spec {A B} (R : A -> B -> Prop) (body : A -> M B) :
  (forall x w, exists y w', body x w = (inr y, w') /\ R x y /\ frame w w') ->
  forall xs w, exists ys w',
    for_each xs body w = (inr ys, w') /\ Forall2 R xs ys /\ frame w w'.
Proof.
  intros Hbody. induction xs as [|x xs IH]; intros w; simpl.
  - exists [], w. repeat split; constructor.
  - destruct (Hbody x w) as (y & w1 & E1 & Hy & F1).
    destruct (IH w1) as (ys & w2 & E2 & Hys & F2).
    exists (y :: ys), w2. unfold bind. rewrite E1, E2.
    split; [reflexivity|]. split; [now constructor|].
    eapply frame_trans; eassumption.
Qed.

Lemma random_choice_labels (w : world) :
  exists p w', random_choice labels w = (inr p, w') /\ In p labels /\ frame w w'.
Proof.
  unfold random_choice, labels at 1.
  eexists _, _. split; [reflexivity|]. split; [|apply frame_with_rng].
  apply nth_In.
  assert (H : tape (rng w) (cursor (rng w)) mod 3 < 3)
    by (apply N.mod_lt; discriminate).
  change (N.of_nat (List.length labels)) with 3. simpl List.length. lia.
Qed.

Lemma random_below_one (w : world) :
  exists k, fst (random_random w) = inr (Z.of_N k # two_pow_53)
            /\ k < Npos two_pow_53
            /\ frame w (snd (random_random w)).
Proof.
  eexists. split; [reflexivity|]. split; [|apply frame_with_rng].
  apply N.mod_lt. discriminate.
Qed.

Lemma label_row_spec (quality : Q) (r : row) (w : world) :
  exists p w',
    label_row quality r w = (inr p, w') /\ keeps_or_draws r p /\ frame w w'.
Proof.
  unfold label_row, bind.
  destruct (random_below_one w) as (k & E & _ & F).
  destruct (random_random w) as [x w1]. simpl in E, F. subst x.
  destruct (Qltb _ quality).
  - exists (prediction r), w1. repeat split; try apply F. now left.
  - destruct (random_choice_labels w1) as (p & w2 & E2 & Hp & F2).
    exists p, w2. split; [exact E2|]. split; [now right|].
    eapply frame_trans; eassumption.
Qed.

(** With a quality of one the draw is always below it. *)
Lemma label_row_keeps (quality : Q) (r : row) (w : world) :
  quality == 1 ->
  exists w', label_row quality r w = (inr (prediction r), w') /\ frame w w'.
Proof.
  intros Hq. unfold label_row, bind.
  destruct (random_below_one w) as (k & E & Hk & F).
  destruct (random_random w) as [x w1]. simpl in E, F. subst x.
  assert (Hlt : Qltb (Z.of_N k # two_pow_53) quality = true).
  { assert (Hk' : (0 <= Z.of_N k < Zpos two_pow_53)%Z) by lia.
    unfold Qltb, Qeq in *. cbn [Qnum Qden] in *. apply Z.ltb_lt.
    generalize dependent (Zpos two_pow_53). intros top Hk'.
    assert (Hq' : Qnum quality = Zpos (Qden quality)) by lia.
    rewrite Hq'. nia. }
  rewrite Hlt. exists w1. split; [reflexivity | exact F].
Qed.

(** With a quality of zero no draw is below it. *)
Lemma label_row_draws (quality : Q) (r : row) (w : world) :
  quality == 0 ->
  exists p w', label_row quality r w = (inr p, w') /\ In p labels /\ frame w w'.
Proof.
  intros Hq. unfold label_row, bind.
  destruct (random_below_one w) as (k & E & Hk & F).
  destruct (random_random w) as [x w1]. simpl in E, F. subst x.
  assert (Hge : Qltb (Z.of_N k # two_pow_53) quality = false).
  { assert (Hk' : (0 <= Z.of_N k < Zpos two_pow_53)%Z) by lia.
    unfold Qltb, Qeq in *. cbn [Qnum Qden] in *. apply Z.ltb_ge.
    generalize dependent (Zpos two_pow_53). intros top Hk'.
    assert (Hq' : Qnum quality = 0%Z) by lia.
    rewrite Hq'. nia. }
  rewrite Hge.
  destruct (random_choice_labels w1) as (p & w2 & E2 & Hp & F2).
  exists p, w2. split; [exact E2|]. split; [exact Hp|].
  eapply frame_trans; eassumption.
Qed.

(** The loop over the groups writes one line per group, for the group's
    key and one label per row of the group. *)
Lemma label_groups_spec (quality : Q) (R : row -> pystr -> Prop) :
  (forall r w, exists p w',
      label_row quality r w = (inr p, w') /\ R r p /\ frame w w') ->
  forall (groups : list (pystr * DataFrame)) (w : world),
  exists labelled w',
    for_each groups (label_group quality) w = (inr (map record_line labelled), w')
    /\ Forall2 (fun g l => fst l = fst g /\ Forall2 R (snd g) (snd l))
               groups labelled
    /\ frame w w'.
Proof.
  intros Hrow. induction groups as [|[k g] groups IH]; intros w; simpl.
  - exists [], w. repeat split; constructor.
  - destruct (for_each_spec R (label_row quality) Hrow g w)
      as (ps & w1 & E1 & Hps & F1).
    destruct (IH w1) as (labelled & w2 & E2 & Hl & F2).
    exists ((k, ps) :: labelled), w2.
    unfold bind, label_group at 1, bind. simpl. rewrite E1. unfold ret.
    rewrite E2. split; [reflexivity|].
    split; [constructor; [split; [reflexivity | exact Hps] | exact Hl]|].
    eapply frame_trans; eassumption.
Qed.

End Loops.

(** ** What a run on collected data does *)

Section Run.

Variable self : Labeling.
Variable w : world.
Variable location : pystr.
Variable data : DataFrame.

Hypothesis Hlocation : ground_truth_uri self = Some location.
Hypothesis Hpresent : location <> [].
Hypothesis Hcollected : collected w (datastore_uri self) location = inr data.

Lemma run_on_data :
  _label_sagemaker_data self w =
    (_ <- boto3_client (py "s3") ;;
     data <- load_unlabeled_collected_data (datastore_uri self) location ;;
     if empty data then ret tt
     else
       records <- for_each (groupby data)
                    (label_group (ground_truth_quality self)) ;;
       upload_time <- datetime_now ;;
       match nth_error (split 47 location) 2 with
       | None => raise (Exn IndexError (py "list index out of range"))
       | Some bucket =>
           put_object (join [10] records) bucket
             (destination_key location upload_time)
       end) w.
Proof.
  unfold _label_sagemaker_data. rewrite Hlocation.
  destruct location; [congruence | reflexivity].
Qed.

Lemma run_nonempty (R : row -> pystr -> Prop) :
  data <> [] ->
  (forall r w0, exists p w',
      label_row (ground_truth_quality self) r w0 = (inr p, w')
      /\ R r p /\ frame w0 w') ->
  exists labelled,
    Forall2 (fun g l => fst l = fst g /\ Forall2 R (snd g) (snd l))
            (groupby data) labelled
    /\ emits self w location (join [10] (map record_line labelled)).
Proof.
  intros Hdata Hrow.
  pose (w1 := record_event (LoadCollected (datastore_uri self) location)
                (record_event (BotoClient (py "s3")) w)).
  destruct (label_groups_spec _ R Hrow (groupby data) w1)
    as (labelled & w2 & E & Hl & (Fc & _ & Fl)).
  exists labelled. split; [exact Hl|].
  assert (Hrun : _label_sagemaker_data self w =
    match nth_error (split 47 location) 2 with
    | None => raise (Exn IndexError (py "list index out of range"))
    | Some bucket =>
        put_object (join [10] (map record_line labelled)) bucket
          (destination_key location (clock w))
    end (record_event UtcNow w2)).
  { rewrite run_on_data.
    unfold bind at 1, boto3_client. unfold bind at 1, load_unlabeled_collected_data.
    cbn [collected record_event]. rewrite Hcollected.
    destruct data as [|r0 rest]; [congruence|]. cbn [empty].
    fold w1. unfold bind at 1. rewrite E.
    unfold bind at 1, datetime_now. rewrite Fc. reflexivity. }
  unfold emits. rewrite Hrun.
  destruct (nth_error (split 47 location) 2) as [bucket|];
    cbn [fst snd put_object raise record_event log clock];
    rewrite Fl; (split; [reflexivity|]);
    unfold w1; cbn [record_event log clock];
    repeat rewrite <- app_assoc; reflexivity.
Qed.

Lemma run_empty :
  data = [] ->
  _label_sagemaker_data self w =
    (inr tt,
     {| rng := rng w; clock := clock w; collected := collected w;
        log := log w ++ [ BotoClient (py "s3");
                          LoadCollected (datastore_uri self) location ] |}).
Proof.
  intros Hdata. rewrite run_on_data.
  unfold bind at 1, boto3_client. unfold bind at 1, load_unlabeled_collected_data.
  cbn [collected record_event]. rewrite Hcollected, Hdata. cbn [empty].
  unfold ret, record_event. cbn [log rng clock collected].
  rewrite <- app_assoc. reflexivity.
Qed.

End Run.

(** ** The labels that are emitted *)

Lemma kept_everywhere (groups : list (pystr * DataFrame))
      (labelled : list (pystr * list pystr)) :
  Forall2 (fun g l => fst l = fst g
                      /\ Forall2 (fun r p => p = prediction r) (snd g) (snd l))
          groups labelled ->
  labelled = map (fun g => (fst g, map prediction (snd g))) groups.
Proof.
  induction 1 as [|[k g] [k' ps] groups labelled [Hk Hps] _ IH]; simpl;
    [reflexivity|].
  simpl in Hk, Hps. subst k'. rewrite <- IH. f_equal. f_equal.
  clear -Hps. induction Hps as [|r p g ps -> _ IH]; simpl; congruence.
Qed.

Lemma run_keeps_predictions
    (self : Labeling) (w : world) (location : pystr) (data : DataFrame) :
  ground_truth_uri self = Some location ->
  location <> [] ->
  collected w (datastore_uri self) location = inr data ->
  data <> [] ->
  ground_truth_quality self == 1 ->
  emits self w location (payload_of (original_predictions data)).
Proof.
  intros Hloc Hpresent Hcollected Hdata Hq.
  destruct (run_nonempty self w location data Hloc Hpresent Hcollected
              (fun r p => p = prediction r) Hdata)
    as (labelled & Hl & Hemits).
  - intros r w0. destruct (label_row_keeps _ r w0 Hq) as (w' & E & F).
    exists (prediction r), w'. auto.
  - apply kept_everywhere in Hl. subst labelled. exact Hemits.
Qed.

(** C1.  When the quality is 1.0 and the collected data is not empty, the
    payload that is put holds, for every event id, the original predictions
    of the rows of its group: no label is ever substituted. *)
Theorem quality_one_keeps_every_prediction
    (self : Labeling) (w : world) (location : pystr) (data : DataFrame) :
  ground_truth_uri self = Some location ->
  location <> [] ->
  collected w (datastore_uri self) location = inr data ->
  data <> [] ->
  ground_truth_quality self == 1 ->
  emits self w location (payload_of (original_predictions data)).
Proof. exact (run_keeps_predictions self w location data). Qed.

(** C2.  When the quality is 0.0 and the collected data is not empty, the
    payload that is put holds, for every group, one label per row, each of
    them one of the three labels of the universe. *)
Theorem quality_zero_draws_every_label
    (self : Labeling) (w : world) (location : pystr) (data : DataFrame) :
  ground_truth_uri self = Some location ->
  location <> [] ->
  collected w (datastore_uri self) location = inr data ->
  data <> [] ->
  ground_truth_quality self == 0 ->
  exists labelled,
    Forall2 (fun g l => fst l = fst g
                        /\ Forall2 (fun _ p => In p labels) (snd g) (snd l))
            (groupby data) labelled
    /\ emits self w location (payload_of labelled).
Proof.
  intros Hloc Hpresent Hcollected Hdata Hq.
  apply (run_nonempty self w location data Hloc Hpresent Hcollected
           (fun _ p => In p labels) Hdata).
  intros r w0. exact (label_row_draws _ r w0 Hq).
Qed.

(** C9.  Whatever the quality, every label in the payload is the original
    prediction of its row or one of "Adelie", "Chinstrap" and "Gentoo". *)
Theorem every_label_is_original_or_known
    (self : Labeling) (w : world) (location : pystr) (data : DataFrame) :
  ground_truth_uri self = Some location ->
  location <> [] ->
  collected w (datastore_uri self) location = inr data ->
  data <> [] ->
  exists labelled,
    Forall2 (fun g l =>
               fst l = fst g
               /\ Forall2 (fun r p =>
                             p = prediction r \/ p = py "Adelie"
                             \/ p = py "Chinstrap" \/ p = py "Gentoo")
                          (snd g) (snd l))
            (groupby data) labelled
    /\ emits self w location (payload_of labelled).
Proof.
  intros Hloc Hpresent Hcollected Hdata.
  apply (run_nonempty self w location data Hloc Hpresent Hcollected _ Hdata).
  intros r w0.
  destruct (label_row_spec (ground_truth_quality self) r w0)
    as (p & w' & E & [Hp|Hp] & F); exists p, w'; repeat split; try apply F; auto.
  right. unfold labels in Hp. simpl in Hp. intuition.
Qed.

(** ** Records and groups *)

Lemma labelled_by_key (R : row -> pystr -> Prop) (data : DataFrame)
      (labelled : list (pystr * list pystr)) :
  Forall2 (fun g l => fst l = fst g /\ Forall2 R (snd g) (snd l))
          (groupby data) labelled ->
  map fst labelled = group_keys data
  /\ Forall (fun l => Forall2 R (get_group data (fst l)) (snd l)) labelled.
Proof.
  unfold groupby. generalize (group_keys data) as keys. intros keys.
  revert labelled. induction keys as [|k keys IH]; intros labelled H;
    inversion H as [|g l gs ls [Hk Hl] Hrest]; subst; simpl.
  - split; constructor.
  - destruct (IH ls Hrest) as [E F]. simpl in Hk, Hl.
    split; [congruence|]. constructor; [|exact F]. now rewrite Hk.
Qed.

Lemma payload_lines (labelled : list (pystr * list pystr)) :
  labelled <> [] ->
  split 10 (payload_of labelled) = map record_line labelled.
Proof.
  intros H. unfold payload_of. apply split_join.
  - destruct labelled; [congruence | discriminate].
  - apply Forall_map, Forall_forall. intros l _.
    apply printable_no_newline, dumps_printable.
Qed.

(** C3.  The payload holds exactly one record per distinct [event_id] of
    the collected data: the event ids of its records are the distinct event
    ids, each once, and it has as many lines as there are distinct event
    ids.  Empty data has no event id and nothing is put. *)
Theorem one_record_per_distinct_event_id
    (self : Labeling) (w : world) (location : pystr) (data : DataFrame) :
  ground_truth_uri self = Some location ->
  location <> [] ->
  collected w (datastore_uri self) location = inr data ->
  match data with
  | [] =>
      distinct_event_ids data = []
      /\ log (snd (_label_sagemaker_data self w)) =
           log w ++ [ BotoClient (py "s3");
                      LoadCollected (datastore_uri self) location ]
  | _ :: _ =>
      exists labelled,
        emits self w location (payload_of labelled)
        /\ Permutation (map fst labelled) (distinct_event_ids data)
        /\ List.length labelled = List.length (distinct_event_ids data)
        /\ List.length (split 10 (payload_of labelled))
           = List.length (distinct_event_ids data)
  end.
Proof.
  intros Hloc Hpresent Hcollected.
  destruct data as [|r0 rest] eqn:Edata.
  - split; [reflexivity|].
    now rewrite (run_empty self w location [] Hloc Hpresent Hcollected eq_refl).
  - rewrite <- Edata in *.
    assert (Hdata : data <> []) by (rewrite Edata; discriminate).
    clear Edata r0 rest.
    destruct (run_nonempty self w location data Hloc Hpresent Hcollected
                keeps_or_draws Hdata (label_row_spec _))
      as (labelled & Hl & Hemits).
    apply labelled_by_key in Hl as [Hkeys _].
    assert (Hlen : List.length labelled = List.length (distinct_event_ids data)).
    { rewrite <- (length_map fst), Hkeys.
      apply Permutation_length, group_keys_distinct. }
    exists labelled. split; [exact Hemits|].
    split; [rewrite Hkeys; apply group_keys_distinct|].
    split; [exact Hlen|].
    rewrite payload_lines, length_map; [exact Hlen|].
    intros ->. apply (group_keys_nonempty data Hdata). now rewrite <- Hkeys.
Qed.

(** C4.  Every event id of the collected data has exactly one record, and
    the labels of that record stand, one for one and in the order of the
    frame, for the rows that carry the event id: as many labels as rows,
    the label at each position made from the row at that position (with a
    quality of 1.0, the row's own prediction). *)
Theorem one_label_per_row_in_row_order
    (self : Labeling) (w : world) (location : pystr) (data : DataFrame) :
  ground_truth_uri self = Some location ->
  location <> [] ->
  collected w (datastore_uri self) location = inr data ->
  data <> [] ->
  exists labelled,
    emits self w location (payload_of labelled)
    /\ (forall r, In r data -> In (event_id r) (map fst labelled))
    /\ NoDup (map fst labelled)
    /\ forall k predictions, In (k, predictions) labelled ->
         let rows := filter (fun r => PyStr.eqb (event_id r) k) data in
         List.length predictions = List.length rows
         /\ Forall2 keeps_or_draws rows predictions
         /\ (ground_truth_quality self == 1 ->
             predictions = map prediction rows).
Proof.
  intros Hloc Hpresent Hcollected Hdata.
  set (q := ground_truth_quality self).
  destruct (run_nonempty self w location data Hloc Hpresent Hcollected
              (fun r p => keeps_or_draws r p /\ (q == 1 -> p = prediction r))
              Hdata)
    as (labelled & Hl & Hemits).
  { intros r w0. destruct (Qeq_dec q 1) as [Hq|Hq].
    - destruct (label_row_keeps q r w0 Hq) as (w' & E & F).
      exists (prediction r), w'. repeat split; try apply F; auto. now left.
    - destruct (label_row_spec q r w0) as (p & w' & E & Hp & F).
      exists p, w'. repeat split; try apply F; auto. intros H. now destruct Hq. }
  apply labelled_by_key in Hl as [Hkeys Hrows].
  exists labelled. split; [exact Hemits|].
  split; [|split].
  - intros r Hr. rewrite Hkeys. apply group_keys_In. now apply in_map.
  - rewrite Hkeys. apply sorted_NoDup, group_keys_sorted.
  - intros k predictions Hin rows.
    rewrite Forall_forall in Hrows. specialize (Hrows _ Hin).
    simpl in Hrows. fold rows in Hrows. unfold get_group in Hrows.
    fold rows in Hrows. clearbody rows. clear Hin.
    induction Hrows as [|r p rows ps [Hp Hkeep] _ (IHlen & IHrel & IHkeep)].
    + split; [reflexivity|]. split; [constructor | intros _; reflexivity].
    + simpl. split; [now rewrite IHlen|]. split; [now constructor|].
      intros Hq. now rewrite (Hkeep Hq), (IHkeep Hq).
Qed.

(** C10.  The records of the payload come in ascending order of their
    event ids, the order in which [groupby] sorts its keys; whenever the
    event ids do not first appear in ascending order, this is not the order
    of their first appearance. *)
Theorem records_in_ascending_event_id_order
    (self : Labeling) (w : world) (location : pystr) (data : DataFrame) :
  ground_truth_uri self = Some location ->
  location <> [] ->
  collected w (datastore_uri self) location = inr data ->
  data <> [] ->
  exists labelled,
    emits self w location (payload_of labelled)
    /\ StronglySorted PyStr.lt (map fst labelled)
    /\ Permutation (map fst labelled) (distinct_event_ids data)
    /\ (~ StronglySorted PyStr.lt (appearance (map event_id data)) ->
        map fst labelled <> appearance (map event_id data)).
Proof.
  intros Hloc Hpresent Hcollected Hdata.
  destruct (run_nonempty self w location data Hloc Hpresent Hcollected
              keeps_or_draws Hdata (label_row_spec _))
    as (labelled & Hl & Hemits).
  apply labelled_by_key in Hl as [Hkeys _].
  exists labelled. rewrite Hkeys.
  split; [exact Hemits|]. split; [apply group_keys_sorted|].
  split; [apply group_keys_distinct|].
  intros Hnot E. apply Hnot. rewrite <- E. apply group_keys_sorted.
Qed.

(** ** The text of the payload *)

Lemma record_line_text (l : pystr * list pystr) :
  record_line l = line_text (fst l) (snd l).
Proof.
  destruct l as [k ps]. unfold record_line, line_text, ground_truth_record.
  cbn [fst snd]. rewrite !dumps_JDict. cbn [map fst snd join].
  rewrite !dumps_JDict. cbn [map fst snd join]. rewrite dumps_JList, map_map.
  cbn [dumps]. change (map (fun x => encode_basestring_ascii x) ps)
    with (map encode_basestring_ascii ps).
  generalize (join (py ", ") (map encode_basestring_ascii ps)) as items.
  generalize (encode_basestring_ascii k) as key. intros key items.
  repeat rewrite <- app_assoc. reflexivity.
Qed.

Lemma payload_text (labelled : list (pystr * list pystr)) :
  payload_of labelled
  = join [10] (map (fun l => line_text (fst l) (snd l)) labelled).
Proof.
  unfold payload_of. f_equal. apply map_ext, record_line_text.
Qed.

(** C5.  The payload is the newline-join of one line per record; each line
    is the JSON object with [groundTruthData] (the labels as [data],
    ["CSV"] as [encoding]), [eventMetadata] (the event id as [eventId]) and
    [eventVersion] "0", written in printable ASCII, hence on a single line.
    For the two rows of event "a" predicted "Adelie" and "Gentoo" and a
    quality of 1.0 the payload is that one record, which is the text of the
    specification up to the spaces between its tokens. *)
Theorem payload_is_newline_joined_json_records
    (self : Labeling) (w : world) (location : pystr) (data : DataFrame) :
  ground_truth_uri self = Some location ->
  location <> [] ->
  collected w (datastore_uri self) location = inr data ->
  data <> [] ->
  (exists labelled,
      Forall2 (fun g l => fst l = fst g
                          /\ Forall2 keeps_or_draws (snd g) (snd l))
              (groupby data) labelled
      /\ emits self w location
           (join [10] (map (fun l => line_text (fst l) (snd l)) labelled))
      /\ Forall (fun l => Forall printable (line_text (fst l) (snd l)))
                labelled)
  /\ (ground_truth_quality self == 1 ->
      data = [ Row (py "a") (py "Adelie"); Row (py "a") (py "Gentoo") ] ->
      let text := jsontext
        ("{'groundTruthData': {'data': ['Adelie', 'Gentoo'], 'encoding': 'CSV'}, "
         ++ "'eventMetadata': {'eventId': 'a'}, 'eventVersion': '0'}") in
      emits self w location text
      /\ compact false text
         = compact false (jsontext
             ("{'groundTruthData': {'data': ['Adelie','Gentoo'], 'encoding':'CSV'}, "
              ++ "'eventMetadata': {'eventId':'a'}, 'eventVersion':'0'}"))).
Proof.
  intros Hloc Hpresent Hcollected Hdata. split.
  - destruct (run_nonempty self w location data Hloc Hpresent Hcollected
                keeps_or_draws Hdata (label_row_spec _))
      as (labelled & Hl & Hemits).
    exists labelled. split; [exact Hl|]. rewrite <- payload_text.
    split; [exact Hemits|].
    apply Forall_forall. intros l _. rewrite <- record_line_text.
    apply dumps_printable.
  - intros Hq Hrows text.
    pose proof (run_keeps_predictions self w location data
                  Hloc Hpresent Hcollected Hdata Hq) as Hemits.
    subst data.
    replace text
      with (payload_of (original_predictions
              [ Row (py "a") (py "Adelie"); Row (py "a") (py "Gentoo") ]))
      by (vm_compute; reflexivity).
    split; [exact Hemits | vm_compute; reflexivity].
Qed.

(** ** Runs that stop early *)

(** C6.  On empty collected data the routine returns normally after
    creating the client and loading the data: the clock is not read, so no
    destination key is made, nothing is put, and the random generator is
    left as it was. *)
Theorem empty_data_is_a_silent_no_op
    (self : Labeling) (w : world) (location : pystr) :
  ground_truth_uri self = Some location ->
  location <> [] ->
  collected w (datastore_uri self) location = inr [] ->
  _label_sagemaker_data self w =
    (inr tt,
     {| rng := rng w; clock := clock w; collected := collected w;
        log := log w ++ [ BotoClient (py "s3");
                          LoadCollected (datastore_uri self) location ] |}).
Proof.
  intros Hloc Hpresent Hcollected.
  exact (run_empty self w location [] Hloc Hpresent Hcollected eq_refl).
Qed.

(** C7.  Without a ground-truth location ([None], or the empty string) the
    routine raises its [RuntimeError] at once and leaves the world as it
    found it: no client is created, nothing is loaded, nothing is put.  So
    does the [label] step on an [s3://] datastore.  The error is caught only
    as a [RuntimeError] (or as an [Exception]); in particular it is not a
    [ValueError], the class of the error [label] raises for a datastore that
    is neither [s3://] nor [sqlite://], and none of the classes raised for a
    malformed value or document. *)
Theorem missing_ground_truth_location_fails_first
    (self : Labeling) (w : world) :
  ground_truth_uri self = None \/ ground_truth_uri self = Some [] ->
  _label_sagemaker_data self w = (inl ground_truth_required, w)
  /\ (startswith (datastore_uri self) (py "s3://") = true ->
      label self w = (inl ground_truth_required, w))
  /\ (forall c, isinstance ground_truth_required c = true
                <-> c = RuntimeError \/ c = Exception)
  /\ (forall other w',
        startswith (datastore_uri other) (py "s3://") = false ->
        startswith (datastore_uri other) (py "sqlite://") = false ->
        exists e, label other w' = (inl e, w')
                  /\ exn_cls e = ValueError
                  /\ isinstance e RuntimeError = false
                  /\ isinstance ground_truth_required (exn_cls e) = false).
Proof.
  intros Hmissing.
  assert (Hrun : _label_sagemaker_data self w = (inl ground_truth_required, w)).
  { unfold _label_sagemaker_data. destruct Hmissing as [-> | ->]; reflexivity. }
  split; [exact Hrun|]. split; [|split].
  - intros Hs3. unfold label. now rewrite Hs3.
  - intros c. unfold isinstance, ground_truth_required. cbn [exn_cls mro existsb].
    destruct c; cbn [exn_class_eqb orb]; split; intros H;
      try discriminate H; try reflexivity; auto;
      destruct H as [H|H]; discriminate H.
  - intros other w' Hs3 Hsqlite. unfold label. rewrite Hs3, Hsqlite.
    eexists. split; [reflexivity|]. repeat split.
Qed.

(** ** The destination key *)

(** C8.  For the location [s3://bucket/ground-truth] and an upload on
    2024-03-09 at 07:05:02 UTC, the payload is put in the bucket [bucket]
    under the key [ground-truth2024/03/09/07/0502.jsonl]: the date follows
    the prefix without a slash, where the documented format has
    [ground-truth/2024/03/09/07/0502.jsonl]. *)
Theorem destination_key_lacks_separator :
  let self := Demo.flow (Some (py "s3://bucket/ground-truth")) 1 in
  let w := Demo.world_of Demo.two_rows 1 in
  let r := _label_sagemaker_data self w in
  fst r = inr tt
  /\ log (snd r) =
       [ BotoClient (py "s3");
         LoadCollected (py "s3://bucket/datastore") (py "s3://bucket/ground-truth");
         UtcNow;
         PutObject (payload_of [(py "a", [py "Adelie"; py "Gentoo"])])
                   (py "bucket")
                   (py "ground-truth2024/03/09/07/0502.jsonl") ]
  /\ py "ground-truth2024/03/09/07/0502.jsonl"
     <> py "ground-truth" ++ py "/" ++ py "2024/03/09/07/0502.jsonl".
Proof.
  cbv zeta. split; [vm_compute; reflexivity|].
  split; [vm_compute; reflexivity | discriminate].
Qed.

(** ** The theorems at work on concrete runs *)

Section Witnesses.

Import Demo.

Lemma quality_one_keeps_every_prediction_witness :
  let self := flow (Some ground_truth) 1 in
  let w := world_of two_rows 1 in
  (ground_truth_uri self = Some ground_truth
   /\ ground_truth <> []
   /\ collected w (datastore_uri self) ground_truth = inr two_rows
   /\ two_rows <> []
   /\ ground_truth_quality self == 1)
  /\ emits self w ground_truth (payload_of (original_predictions two_rows)).
Proof.
  cbv zeta.
  split; [repeat split; try reflexivity; discriminate|].
  apply (quality_one_keeps_every_prediction
           (flow (Some ground_truth) 1) (world_of two_rows 1)
           ground_truth two_rows);
    try reflexivity; discriminate.
Defined.

Lemma quality_zero_draws_every_label_witness :
  let self := flow (Some ground_truth) 0 in
  let w := world_of mixed_rows 1 in
  (ground_truth_uri self = Some ground_truth
   /\ ground_truth <> []
   /\ collected w (datastore_uri self) ground_truth = inr mixed_rows
   /\ mixed_rows <> []
   /\ ground_truth_quality self == 0)
  /\ exists labelled,
       Forall2 (fun g l => fst l = fst g
                           /\ Forall2 (fun _ p => In p labels) (snd g) (snd l))
               (groupby mixed_rows) labelled
       /\ emits self w ground_truth (payload_of labelled).
Proof.
  cbv zeta.
  split; [repeat split; try reflexivity; discriminate|].
  apply (quality_zero_draws_every_label
           (flow (Some ground_truth) 0) (world_of mixed_rows 1)
           ground_truth mixed_rows);
    try reflexivity; discriminate.
Defined.

Lemma every_label_is_original_or_known_witness :
  let self := flow (Some ground_truth) (4 # 5) in
  let w := world_of mixed_rows 3000000000000000 in
  (ground_truth_uri self = Some ground_truth
   /\ ground_truth <> []
   /\ collected w (datastore_uri self) ground_truth = inr mixed_rows
   /\ mixed_rows <> [])
  /\ exists labelled,
       Forall2 (fun g l =>
                  fst l = fst g
                  /\ Forall2 (fun r p =>
                                p = prediction r \/ p = py "Adelie"
                                \/ p = py "Chinstrap" \/ p = py "Gentoo")
                             (snd g) (snd l))
               (groupby mixed_rows) labelled
       /\ emits self w ground_truth (payload_of labelled).
Proof.
  cbv zeta.
  split; [repeat split; try reflexivity; discriminate|].
  apply (every_label_is_original_or_known
           (flow (Some ground_truth) (4 # 5))
           (world_of mixed_rows 3000000000000000) ground_truth mixed_rows);
    try reflexivity; discriminate.
Defined.

Lemma one_record_per_distinct_event_id_witness :
  let self := flow (Some ground_truth) (4 # 5) in
  let w := world_of mixed_rows 3000000000000000 in
  let w0 := world_of [] 1 in
  (ground_truth_uri self = Some ground_truth
   /\ ground_truth <> []
   /\ collected w (datastore_uri self) ground_truth = inr mixed_rows
   /\ collected w0 (datastore_uri self) ground_truth = inr [])
  /\ (exists labelled,
        emits self w ground_truth (payload_of labelled)
        /\ Permutation (map fst labelled) (distinct_event_ids mixed_rows)
        /\ List.length labelled = List.length (distinct_event_ids mixed_rows)
        /\ List.length (split 10 (payload_of labelled))
           = List.length (distinct_event_ids mixed_rows))
  /\ (distinct_event_ids [] = []
      /\ log (snd (_label_sagemaker_data self w0)) =
           log w0 ++ [ BotoClient (py "s3");
                       LoadCollected (datastore_uri self) ground_truth ]).
Proof.
  cbv zeta.
  split; [repeat split; try reflexivity; discriminate|]. split.
  - apply (one_record_per_distinct_event_id
             (flow (Some ground_truth) (4 # 5))
             (world_of mixed_rows 3000000000000000) ground_truth mixed_rows);
      try reflexivity; discriminate.
  - apply (one_record_per_distinct_event_id
             (flow (Some ground_truth) (4 # 5))
             (world_of [] 1) ground_truth []);
      try reflexivity; discriminate.
Defined.

Lemma one_label_per_row_in_row_order_witness :
  let self := flow (Some ground_truth) (4 # 5) in
  let w := world_of mixed_rows 3000000000000000 in
  (ground_truth_uri self = Some ground_truth
   /\ ground_truth <> []
   /\ collected w (datastore_uri self) ground_truth = inr mixed_rows
   /\ mixed_rows <> [])
  /\ exists labelled,
       emits self w ground_truth (payload_of labelled)
       /\ (forall r, In r mixed_rows -> In (event_id r) (map fst labelled))
       /\ NoDup (map fst labelled)
       /\ forall k predictions, In (k, predictions) labelled ->
            let rows := filter (fun r => PyStr.eqb (event_id r) k) mixed_rows in
            List.length predictions = List.length rows
            /\ Forall2 keeps_or_draws rows predictions
            /\ (ground_truth_quality self == 1 ->
                predictions = map prediction rows).
Proof.
  cbv zeta.
  split; [repeat split; try reflexivity; discriminate|].
  apply (one_label_per_row_in_row_order
           (flow (Some ground_truth) (4 # 5))
           (world_of mixed_rows 3000000000000000) ground_truth mixed_rows);
    try reflexivity; discriminate.
Defined.

Lemma records_in_ascending_event_id_order_witness :
  let self := flow (Some ground_truth) (4 # 5) in
  let w := world_of mixed_rows 3000000000000000 in
  (ground_truth_uri self = Some ground_truth
   /\ ground_truth <> []
   /\ collected w (datastore_uri self) ground_truth = inr mixed_rows
   /\ mixed_rows <> []
   /\ appearance (map event_id mixed_rows) = [py "b"; py "a"; py "c"])
  /\ exists labelled,
       emits self w ground_truth (payload_of labelled)
       /\ StronglySorted PyStr.lt (map fst labelled)
       /\ Permutation (map fst labelled) (distinct_event_ids mixed_rows)
       /\ (~ StronglySorted PyStr.lt (appearance (map event_id mixed_rows)) ->
           map fst labelled <> appearance (map event_id mixed_rows)).
Proof.
  cbv zeta.
  split; [repeat split; try reflexivity; discriminate|].
  apply (records_in_ascending_event_id_order
           (flow (Some ground_truth) (4 # 5))
           (world_of mixed_rows 3000000000000000) ground_truth mixed_rows);
    try reflexivity; discriminate.
Defined.

Lemma payload_is_newline_joined_json_records_witness :
  let self := flow (Some ground_truth) 1 in
  let w := world_of two_rows 1 in
  let text := jsontext
    ("{'groundTruthData': {'data': ['Adelie', 'Gentoo'], 'encoding': 'CSV'}, "
     ++ "'eventMetadata': {'eventId': 'a'}, 'eventVersion': '0'}") in
  (ground_truth_uri self = Some ground_truth
   /\ ground_truth <> []
   /\ collected w (datastore_uri self) ground_truth = inr two_rows
   /\ two_rows <> []
   /\ ground_truth_quality self == 1)
  /\ emits self w ground_truth text
  /\ log (snd (_label_sagemaker_data self w)) =
       [ BotoClient (py "s3");
         LoadCollected (py "s3://bucket/datastore") ground_truth;
         UtcNow;
         PutObject text (py "bucket") (py "ground-truth/2024/03/09/07/0502.jsonl") ].
Proof.
  cbv zeta.
  split; [repeat split; try reflexivity; discriminate|].
  split; [|vm_compute; reflexivity].
  apply (payload_is_newline_joined_json_records
           (flow (Some ground_truth) 1) (world_of two_rows 1)
           ground_truth two_rows);
    try reflexivity; discriminate.
Defined.

Lemma empty_data_is_a_silent_no_op_witness :
  let self := flow (Some ground_truth) (4 # 5) in
  let w := world_of [] 1 in
  (ground_truth_uri self = Some ground_truth
   /\ ground_truth <> []
   /\ collected w (datastore_uri self) ground_truth = inr [])
  /\ _label_sagemaker_data self w =
       (inr tt,
        {| rng := rng w; clock := clock w; collected := collected w;
           log := [ BotoClient (py "s3");
                    LoadCollected (py "s3://bucket/datastore") ground_truth ] |}).
Proof.
  cbv zeta.
  split; [repeat split; try reflexivity; discriminate|].
  apply (empty_data_is_a_silent_no_op
           (flow (Some ground_truth) (4 # 5)) (world_of [] 1) ground_truth);
    try reflexivity; discriminate.
Defined.

Lemma missing_ground_truth_location_fails_first_witness :
  let self := flow None (4 # 5) in
  let w := world_of mixed_rows 1 in
  ground_truth_uri self = None
  /\ _label_sagemaker_data self w = (inl ground_truth_required, w)
  /\ label self w = (inl ground_truth_required, w)
  /\ isinstance ground_truth_required ValueError = false.
Proof.
  cbv zeta.
  destruct (missing_ground_truth_location_fails_first
              (flow None (4 # 5)) (world_of mixed_rows 1) (or_introl eq_refl))
    as (Hrun & Hlabel & Hclass & _).
  split; [reflexivity|]. split; [exact Hrun|].
  split; [exact (Hlabel eq_refl) | reflexivity].
Defined.

End Witnesses.

(** * Further properties of the flow *)

(** ** The groups are a partition of the frame *)

Section Partition.

Lemma get_group_cons (r : row) (rest : DataFrame) (k : pystr) :
  get_group (r :: rest) k
  = if PyStr.eqb (event_id r) k then r :: get_group rest k
    else get_group rest k.
Proof. reflexivity. Qed.

Lemma groups_skip_row (r : row) (rest : DataFrame) (keys : list pystr) :
  ~ In (event_id r) keys ->
  map (get_group (r :: rest)) keys = map (get_group rest) keys.
Proof.
  intros Hnot. apply map_ext_in. intros k Hk. rewrite get_group_cons.
  destruct (PyStr.eqb (event_id r) k) eqn:E; [|reflexivity].
  apply eqb_eq in E. subst k. contradiction.
Qed.

Lemma groups_take_row (r : row) (rest : DataFrame) (keys : list pystr) :
  NoDup keys -> In (event_id r) keys ->
  Permutation (List.concat (map (get_group (r :: rest)) keys))
              (r :: List.concat (map (get_group rest) keys)).
Proof.
  induction 1 as [|k keys Hk Hkeys IH]; intros Hin; [destruct Hin|].
  cbn [map List.concat]. rewrite get_group_cons.
  destruct (PyStr.eqb (event_id r) k) eqn:E.
  - apply eqb_eq in E. subst k. now rewrite groups_skip_row.
  - destruct Hin as [->|Hin]; [rewrite (proj2 (eqb_eq _ _) eq_refl) in E; discriminate|].
    rewrite (IH Hin). symmetry. apply Permutation_middle.
Qed.

Lemma groups_partition (data : DataFrame) (keys : list pystr) :
  NoDup keys -> incl (map event_id data) keys ->
  Permutation (List.concat (map (get_group data) keys)) data.
Proof.
  intros Hkeys. induction data as [|r rest IH]; intros Hincl.
  - clear. induction keys; simpl; auto.
  - rewrite groups_take_row; [|assumption|apply Hincl; now left].
    constructor. apply IH. intros k Hk. apply Hincl. now right.
Qed.

Lemma groupby_partition (data : DataFrame) :
  Permutation (List.concat (map snd (groupby data))) data.
Proof.
  unfold groupby. rewrite map_map. cbn [snd].
  apply groups_partition.
  - apply sorted_NoDup, group_keys_sorted.
  - intros k Hk. now apply group_keys_In.
Qed.

Lemma rows_of_groupby (data : DataFrame) :
  rows_of (groupby data) = List.length data.
Proof.
  unfold rows_of. rewrite <- (Permutation_length (groupby_partition data)).
  rewrite length_concat, map_map. reflexivity.
Qed.

End Partition.

(** ** How far the generator moves *)

Section Cost.

Lemma advances_refl (w : world) : advances 0 0 w w.
Proof. unfold advances. repeat split; lia. Qed.

Lemma advances_trans (a b c d : nat) (w1 w2 w3 : world) :
  advances a b w1 w2 -> advances c d w2 w3 -> advances (a + c) (b + d) w1 w3.
Proof.
  intros (F1 & T1 & C1) (F2 & T2 & C2). split; [|split].
  - eapply frame_trans; eassumption.
  - congruence.
  - lia.
Qed.

(** A loop whose body moves the cursor in proportion to the size of its
    item moves it in proportion to the size of the list. *)
Lemma for_each_cost {A B} (R : A -> B -> Prop) (lo hi : nat)
      (size : A -> nat) (body : A -> M B) :
  (forall x w, exists y w',
      body x w = (inr y, w') /\ R x y
      /\ advances (lo * size x) (hi * size x) w w') ->
  forall xs w, exists ys w',
    for_each xs body w = (inr ys, w') /\ Forall2 R xs ys
    /\ advances (lo * list_sum (map size xs)) (hi * list_sum (map size xs)) w w'.
Proof.
  intros Hbody. induction xs as [|x xs IH]; intros w; simpl.
  - exists [], w. split; [reflexivity|]. split; [constructor|].
    rewrite !Nat.mul_0_r. apply advances_refl.
  - destruct (Hbody x w) as (y & w1 & E1 & Hy & F1).
    destruct (IH w1) as (ys & w2 & E2 & Hys & F2).
    exists (y :: ys), w2. unfold bind. rewrite E1, E2.
    split; [reflexivity|]. split; [now constructor|].
    rewrite !Nat.mul_add_distr_l. eapply advances_trans; eassumption.
Qed.

Lemma random_choice_cost (w : world) :
  exists p w', random_choice labels w = (inr p, w') /\ In p labels
               /\ advances 1 1 w w'.
Proof.
  destruct (random_choice_labels w) as (p & w' & E & Hp & F).
  exists p, w'. split; [exact E|]. split; [exact Hp|].
  unfold random_choice, labels in E. injection E as _ <-.
  unfold advances. cbn [with_rng rng tape cursor]. repeat split; lia.
Qed.

Lemma random_random_cost (w : world) :
  exists k, fst (random_random w) = inr (Z.of_N k # two_pow_53)
            /\ k < Npos two_pow_53
            /\ advances 1 1 w (snd (random_random w)).
Proof.
  eexists. split; [reflexivity|]. split; [apply N.mod_lt; discriminate|].
  unfold advances, random_random. cbn [snd with_rng rng tape cursor].
  repeat split; lia.
Qed.

(** One row: one draw, and one more when the label is substituted. *)
Lemma label_row_cost (quality : Q) (r : row) (w : world) :
  exists p w',
    label_row quality r w = (inr p, w') /\ keeps_or_draws r p
    /\ advances 1 2 w w'.
Proof.
  unfold label_row, bind.
  destruct (random_random_cost w) as (k & E & _ & F & T & C).
  destruct (random_random w) as [x w1]. simpl in E, F, T, C. subst x.
  destruct (Qltb _ quality).
  - exists (prediction r), w1. split; [reflexivity|]. split; [now left|].
    repeat split; try apply F; try assumption; lia.
  - destruct (random_choice_cost w1) as (p & w2 & E2 & Hp & F2 & T2 & C2).
    exists p, w2. split; [exact E2|]. split; [now right|].
    split; [eapply frame_trans; eassumption|]. split; [congruence | lia].
Qed.

Lemma above_one_keeps (quality : Q) (r : row) (w : world) :
  (1 <= quality)%Q ->
  exists p w',
    label_row quality r w = (inr p, w') /\ p = prediction r
    /\ advances 1 1 w w'.
Proof.
  intros Hq. unfold label_row, bind.
  destruct (random_random_cost w) as (k & E & Hk & F).
  destruct (random_random w) as [x w1]. simpl in E, F. subst x.
  assert (Hlt : Qltb (Z.of_N k # two_pow_53) quality = true).
  { assert (Hk' : (0 <= Z.of_N k < Zpos two_pow_53)%Z) by lia.
    unfold Qltb, Qle in *. cbn [Qnum Qden] in *. apply Z.ltb_lt.
    generalize dependent (Zpos two_pow_53). intros top Hk'.
    assert (Hq' : (Zpos (Qden quality) <= Qnum quality)%Z) by lia.
    nia. }
  rewrite Hlt. exists (prediction r), w1. auto.
Qed.

Lemma below_zero_draws (quality : Q) (r : row) (w : world) :
  (quality <= 0)%Q ->
  exists p w',
    label_row quality r w = (inr p, w') /\ In p labels
    /\ advances 2 2 w w'.
Proof.
  intros Hq. unfold label_row, bind.
  destruct (random_random_cost w) as (k & E & Hk & F).
  destruct (random_random w) as [x w1]. simpl in E, F. subst x.
  assert (Hge : Qltb (Z.of_N k # two_pow_53) quality = false).
  { assert (Hk' : (0 <= Z.of_N k < Zpos two_pow_53)%Z) by lia.
    unfold Qltb, Qle in *. cbn [Qnum Qden] in *. apply Z.ltb_ge.
    generalize dependent (Zpos two_pow_53). intros top Hk'.
    assert (Hq' : (Qnum quality <= 0)%Z) by lia.
    nia. }
  rewrite Hge.
  destruct (random_choice_cost w1) as (p & w2 & E2 & Hp & F2).
  exists p, w2. split; [exact E2|]. split; [exact Hp|].
  exact (advances_trans 1 1 1 1 _ _ _ F F2).
Qed.

Lemma label_groups_cost (quality : Q) (R : row -> pystr -> Prop)
      (lo hi : nat) :
  (forall r w, exists p w',
      label_row quality r w = (inr p, w') /\ R r p /\ advances lo hi w w') ->
  forall (groups : list (pystr * DataFrame)) (w : world),
  exists labelled w',
    for_each groups (label_group quality) w = (inr (map record_line labelled), w')
    /\ Forall2 (fun g l => fst l = fst g /\ Forall2 R (snd g) (snd l))
               groups labelled
    /\ advances (lo * rows_of groups) (hi * rows_of groups) w w'.
Proof.
  intros Hrow groups w.
  destruct (for_each_cost
              (fun g line => exists ps, line = record_line (fst g, ps)
                                        /\ Forall2 R (snd g) ps)
              lo hi (fun g => List.length (snd g)) (label_group quality))
    with (xs := groups) (w := w) as (lines & w' & E & Hlines & Hadv).
  { intros [k g] w0. unfold label_group, bind. cbn [fst snd].
    destruct (for_each_cost R lo hi (fun _ => 1%nat) (label_row quality))
      with (xs := g) (w := w0) as (ps & w1 & E1 & Hps & Hadv1).
    { intros r w1. rewrite !Nat.mul_1_r. apply Hrow. }
    rewrite E1. exists (record_line (k, ps)), w1.
    split; [reflexivity|]. split; [now exists ps|].
    replace (list_sum (map (fun _ => 1%nat) g)) with (List.length g) in Hadv1;
      [exact Hadv1|].
    clear. induction g; simpl; congruence. }
  assert (Hex : exists labelled,
             lines = map record_line labelled
             /\ Forall2 (fun g l => fst l = fst g /\ Forall2 R (snd g) (snd l))
                        groups labelled).
  { clear E Hadv. induction Hlines as [|g line gs ls (ps & -> & Hps) _ IH].
    - exists []. split; [reflexivity | constructor].
    - destruct IH as (labelled & -> & Hl).
      exists ((fst g, ps) :: labelled).
      split; [reflexivity|]. constructor; [now split | exact Hl]. }
  destruct Hex as (labelled & -> & Hl).
  exists labelled, w'. auto.
Qed.

End Cost.

Section RunCost.

Variable self : Labeling.
Variable w : world.
Variable location : pystr.
Variable data : DataFrame.

Hypothesis Hlocation : ground_truth_uri self = Some location.
Hypothesis Hpresent : location <> [].
Hypothesis Hcollected : collected w (datastore_uri self) location = inr data.

Lemma run_nonempty_cost (R : row -> pystr -> Prop) (lo hi : nat) :
  data <> [] ->
  (forall r w0, exists p w',
      label_row (ground_truth_quality self) r w0 = (inr p, w')
      /\ R r p /\ advances lo hi w0 w') ->
  exists labelled,
    Forall2 (fun g l => fst l = fst g /\ Forall2 R (snd g) (snd l))
            (groupby data) labelled
    /\ emits self w location (payload_of labelled)
    /\ clock (snd (_label_sagemaker_data self w)) = clock w
    /\ collected (snd (_label_sagemaker_data self w)) = collected w
    /\ tape (rng (snd (_label_sagemaker_data self w))) = tape (rng w)
    /\ (cursor (rng w) + lo * List.length data
        <= cursor (rng (snd (_label_sagemaker_data self w)))
        <= cursor (rng w) + hi * List.length data)%nat.
Proof.
  intros Hdata Hrow.
  pose (w1 := record_event (LoadCollected (datastore_uri self) location)
                (record_event (BotoClient (py "s3")) w)).
  destruct (label_groups_cost _ R lo hi Hrow (groupby data) w1)
    as (labelled & w2 & E & Hl & (Fc & Fd & Fl) & Ft & Fcur).
  rewrite rows_of_groupby in Fcur.
  exists labelled. split; [exact Hl|].
  assert (Hrun : _label_sagemaker_data self w =
    match nth_error (split 47 location) 2 with
    | None => raise (Exn IndexError (py "list index out of range"))
    | Some bucket =>
        put_object (join [10] (map record_line labelled)) bucket
          (destination_key location (clock w))
    end (record_event UtcNow w2)).
  { rewrite (run_on_data self w location data Hlocation Hpresent Hcollected).
    unfold bind at 1, boto3_client. unfold bind at 1, load_unlabeled_collected_data.
    cbn [collected record_event]. rewrite Hcollected.
    destruct data as [|r0 rest]; [congruence|]. cbn [empty].
    fold w1. unfold bind at 1. rewrite E.
    unfold bind at 1, datetime_now. rewrite Fc. reflexivity. }
  split.
  { unfold emits, payload_of. rewrite Hrun.
    destruct (nth_error (split 47 location) 2) as [bucket|];
      cbn [fst snd put_object raise record_event log clock];
      rewrite Fl; (split; [reflexivity|]);
      unfold w1; cbn [record_event log clock];
      repeat rewrite <- app_assoc; reflexivity. }
  rewrite Hrun.
  destruct (nth_error (split 47 location) 2) as [bucket|];
    cbn [fst snd put_object raise record_event rng clock collected];
    rewrite Fc, Fd, Ft; auto.
Qed.

End RunCost.

Lemma labels_in_total (R : row -> pystr -> Prop)
      (groups : list (pystr * DataFrame))
      (labelled : list (pystr * list pystr)) :
  Forall2 (fun g l => fst l = fst g /\ Forall2 R (snd g) (snd l))
          groups labelled ->
  List.length (List.concat (map snd labelled)) = rows_of groups.
Proof.
  unfold rows_of. induction 1 as [|g l gs ls [_ Hrows] _ IH]; [reflexivity|].
  cbn [map List.concat list_sum]. rewrite length_app, IH.
  rewrite (Forall2_length Hrows). reflexivity.
Qed.

Lemma labelled_keys (R : row -> pystr -> Prop)
      (groups : list (pystr * DataFrame))
      (labelled : list (pystr * list pystr)) :
  Forall2 (fun g l => fst l = fst g /\ Forall2 R (snd g) (snd l))
          groups labelled ->
  map fst labelled = map fst groups.
Proof.
  induction 1 as [|g l gs ls [Hk _] _ IH]; [reflexivity|].
  cbn [map]. now rewrite Hk, IH.
Qed.

(** X1.  Over the whole payload there are exactly as many labels as the
    collected frame has rows: grouping neither drops nor repeats a row. *)
Theorem as_many_labels_as_rows
    (self : Labeling) (w : world) (location : pystr) (data : DataFrame) :
  ground_truth_uri self = Some location ->
  location <> [] ->
  collected w (datastore_uri self) location = inr data ->
  data <> [] ->
  exists labelled,
    emits self w location (payload_of labelled)
    /\ map fst labelled = map fst (groupby data)
    /\ List.length (List.concat (map snd labelled)) = List.length data.
Proof.
  intros Hloc Hpresent Hcollected Hdata.
  destruct (run_nonempty self w location data Hloc Hpresent Hcollected
              keeps_or_draws Hdata (label_row_spec _))
    as (labelled & Hl & Hemits).
  exists labelled. split; [exact Hemits|]. split.
  - exact (labelled_keys _ _ _ Hl).
  - rewrite (labels_in_total _ _ _ Hl). apply rows_of_groupby.
Qed.

(** X2.  A run keeps the tape of the generator and moves its cursor by at
    least one cell and at most two cells per row of the collected frame: one
    draw of [random.random()] per row, one more of [random.choice] for a row
    whose label is substituted.  On an empty frame it does not move. *)
Theorem generator_moves_once_or_twice_per_row
    (self : Labeling) (w : world) (location : pystr) (data : DataFrame) :
  ground_truth_uri self = Some location ->
  location <> [] ->
  collected w (datastore_uri self) location = inr data ->
  let w' := snd (_label_sagemaker_data self w) in
  tape (rng w') = tape (rng w)
  /\ (cursor (rng w) + List.length data <= cursor (rng w')
      <= cursor (rng w) + 2 * List.length data)%nat.
Proof.
  intros Hloc Hpresent Hcollected w'. subst w'.
  destruct data as [|r0 rest] eqn:Edata.
  - rewrite (run_empty self w location [] Hloc Hpresent Hcollected eq_refl).
    cbn [snd rng List.length]. split; [reflexivity | lia].
  - rewrite <- Edata in *.
    assert (Hdata : data <> []) by (rewrite Edata; discriminate).
    destruct (run_nonempty_cost self w location data Hloc Hpresent Hcollected
                keeps_or_draws 1 2 Hdata (label_row_cost _))
      as (labelled & _ & _ & _ & _ & Ht & Hc).
    split; [exact Ht | lia].
Qed.

(** X3.  A quality of one or more always keeps: the payload holds the
    original predictions, and the generator is read exactly once per row. *)
Theorem quality_of_one_or_more_keeps
    (self : Labeling) (w : world) (location : pystr) (data : DataFrame) :
  ground_truth_uri self = Some location ->
  location <> [] ->
  collected w (datastore_uri self) location = inr data ->
  data <> [] ->
  (1 <= ground_truth_quality self)%Q ->
  emits self w location (payload_of (original_predictions data))
  /\ cursor (rng (snd (_label_sagemaker_data self w)))
     = (cursor (rng w) + List.length data)%nat.
Proof.
  intros Hloc Hpresent Hcollected Hdata Hq.
  destruct (run_nonempty_cost self w location data Hloc Hpresent Hcollected
              (fun r p => p = prediction r) 1 1 Hdata)
    as (labelled & Hl & Hemits & _ & _ & _ & Hc).
  - intros r w0. exact (above_one_keeps _ r w0 Hq).
  - apply kept_everywhere in Hl. subst labelled.
    split; [exact Hemits | lia].
Qed.

(** X4.  A quality of zero or less always substitutes: every label of the
    payload is one of the three labels, and the generator is read exactly
    twice per row. *)
Theorem quality_of_zero_or_less_draws
    (self : Labeling) (w : world) (location : pystr) (data : DataFrame) :
  ground_truth_uri self = Some location ->
  location <> [] ->
  collected w (datastore_uri self) location = inr data ->
  data <> [] ->
  (ground_truth_quality self <= 0)%Q ->
  (exists labelled,
      Forall2 (fun g l => fst l = fst g
                          /\ Forall2 (fun _ p => In p labels) (snd g) (snd l))
              (groupby data) labelled
      /\ emits self w location (payload_of labelled))
  /\ cursor (rng (snd (_label_sagemaker_data self w)))
     = (cursor (rng w) + 2 * List.length data)%nat.
Proof.
  intros Hloc Hpresent Hcollected Hdata Hq.
  destruct (run_nonempty_cost self w location data Hloc Hpresent Hcollected
              (fun _ p => In p labels) 2 2 Hdata)
    as (labelled & Hl & Hemits & _ & _ & _ & Hc).
  - intros r w0. exact (below_zero_draws _ r w0 Hq).
  - split; [exists labelled; auto | lia].
Qed.

(** ** Locations: bucket and key *)

Section Locations.

Lemma split_nonempty (sep : N) (s : pystr) : split sep s <> [].
Proof.
  destruct s as [|c s]; simpl; [discriminate|].
  destruct (c =? sep); [discriminate|].
  destruct (split sep s); discriminate.
Qed.

(** Joining the fields of a split gives the string back. *)
Lemma join_split (sep : N) (s : pystr) : join [sep] (split sep s) = s.
Proof.
  induction s as [|c s IH]; [reflexivity|]. simpl split.
  destruct (c =? sep) eqn:E.
  - apply N.eqb_eq in E. subst c.
    pose proof (split_nonempty sep s) as Hne.
    destruct (split sep s) as [|f fs]; [congruence|].
    change (join [sep] ([] :: f :: fs)) with (sep :: join [sep] (f :: fs)).
    now rewrite IH.
  - pose proof (split_nonempty sep s) as Hne.
    destruct (split sep s) as [|f fs]; [congruence|].
    destruct fs as [|f' fs]; simpl in *; now rewrite <- IH.
Qed.

(** A split has one field more than the string has separators. *)
Lemma length_split (sep : N) (s : pystr) :
  List.length (split sep s) = S (count_occ N.eq_dec s sep).
Proof.
  induction s as [|c s IH]; [reflexivity|]. simpl split.
  destruct (N.eqb_spec c sep) as [->|Hne].
  - rewrite count_occ_cons_eq by reflexivity. simpl. now rewrite IH.
  - rewrite count_occ_cons_neq by assumption. rewrite <- IH.
    pose proof (split_nonempty sep s) as Hs.
    destruct (split sep s); [congruence | reflexivity].
Qed.

Lemma split_s3_location (rest : pystr) :
  split 47 (py "s3://" ++ rest) = py "s3:" :: [] :: split 47 rest.
Proof.
  change (py "s3://" ++ rest) with (115 :: 51 :: 58 :: 47 :: 47 :: rest).
  change (py "s3:") with [115; 51; 58].
  pose proof (split_nonempty 47 rest) as Hne.
  cbn [split N.eqb Pos.eqb].
  destruct (split 47 rest); [congruence | reflexivity].
Qed.

Lemma bucket_of_s3_location (bucket prefix : pystr) :
  ~ In 47 bucket ->
  nth_error (split 47 (py "s3://" ++ bucket ++ 47 :: prefix)) 2 = Some bucket
  /\ forall t, destination_key (py "s3://" ++ bucket ++ 47 :: prefix) t
               = prefix ++ strftime t ++ py ".jsonl".
Proof.
  intros Hbucket. rewrite !split_s3_location.
  rewrite (split_app_sep 47 bucket prefix Hbucket).
  split; [reflexivity|]. intros t. unfold destination_key.
  rewrite !split_s3_location, (split_app_sep 47 bucket prefix Hbucket).
  cbn [skipn]. change (py "/") with [47]. now rewrite join_split.
Qed.

Lemma no_bucket_iff (location : pystr) :
  nth_error (split 47 location) 2 = None
  <-> (count_occ N.eq_dec location 47%N < 2)%nat.
Proof.
  rewrite nth_error_None, length_split. lia.
Qed.

End Locations.

(** ** Every way a run can go *)

Lemma run_loader_error
    (self : Labeling) (w : world) (location : pystr) (e : exn) :
  ground_truth_uri self = Some location ->
  location <> [] ->
  collected w (datastore_uri self) location = inl e ->
  _label_sagemaker_data self w =
    (inl e,
     {| rng := rng w; clock := clock w; collected := collected w;
        log := log w ++ [ BotoClient (py "s3");
                          LoadCollected (datastore_uri self) location ] |}).
Proof.
  intros Hloc Hpresent Hcollected.
  unfold _label_sagemaker_data. rewrite Hloc.
  destruct location as [|c rest]; [congruence|].
  unfold bind at 1, boto3_client. unfold bind at 1, load_unlabeled_collected_data.
  cbn [collected record_event]. rewrite Hcollected.
  unfold record_event. cbn [log rng clock collected].
  rewrite <- app_assoc. reflexivity.
Qed.

(** X5.  An exception of the data loader passes through the routine as it
    is: the client was created and the load attempted, but no label is
    drawn, the clock is not read and nothing is put. *)
Theorem loader_exception_passes_through
    (self : Labeling) (w : world) (location : pystr) (e : exn) :
  ground_truth_uri self = Some location ->
  location <> [] ->
  collected w (datastore_uri self) location = inl e ->
  _label_sagemaker_data self w =
    (inl e,
     {| rng := rng w; clock := clock w; collected := collected w;
        log := log w ++ [ BotoClient (py "s3");
                          LoadCollected (datastore_uri self) location ] |}).
Proof.
  intros Hloc Hpresent Hcollected.
  unfold _label_sagemaker_data. rewrite Hloc.
  destruct location as [|c rest]; [congruence|].
  unfold bind at 1, boto3_client. unfold bind at 1, load_unlabeled_collected_data.
  cbn [collected record_event]. rewrite Hcollected.
  unfold record_event. cbn [log rng clock collected].
  rewrite <- app_assoc. reflexivity.
Qed.

(** X6.  Whatever the flow's parameters and the world, a run only appends
    to the log, and what it appends is a beginning of the sequence "create
    the client, load, read the clock, put": nothing at all when the
    ground-truth location is missing; the first two calls when the data is
    empty or the loader fails; the first three when the location has no
    bucket; all four, with a normal return, otherwise.  So a run never puts
    more than one object and never puts before it has loaded the data and
    read the clock; the clock, the datastore and the tape stay as they
    were. *)
Theorem run_follows_the_protocol (self : Labeling) (w : world) :
  let r := _label_sagemaker_data self w in
  clock (snd r) = clock w
  /\ collected (snd r) = collected w
  /\ tape (rng (snd r)) = tape (rng w)
  /\ exists events,
       log (snd r) = log w ++ events
       /\ ((events = [] /\ fst r = inl ground_truth_required)
           \/ (exists location,
                 events = [ BotoClient (py "s3");
                            LoadCollected (datastore_uri self) location ]
                 /\ (collected w (datastore_uri self) location = inr []
                     /\ fst r = inr tt
                     \/ exists e,
                          collected w (datastore_uri self) location = inl e
                          /\ fst r = inl e))
           \/ (exists location,
                 events = [ BotoClient (py "s3");
                            LoadCollected (datastore_uri self) location;
                            UtcNow ]
                 /\ fst r = inl (Exn IndexError (py "list index out of range")))
           \/ (exists location body bucket,
                 events = upload_events self location (clock w) body bucket
                 /\ fst r = inr tt)).
Proof.
  intros r. subst r.
  destruct (ground_truth_uri self) as [location|] eqn:Hloc.
  2:{ unfold _label_sagemaker_data. rewrite Hloc. cbn [raise fst snd].
      repeat split. exists []. rewrite app_nil_r. auto. }
  destruct location as [|c rest] eqn:Eloc.
  { unfold _label_sagemaker_data. rewrite Hloc. cbn [raise fst snd].
    repeat split. exists []. rewrite app_nil_r. auto. }
  rewrite <- Eloc in *.
  assert (Hpresent : location <> []) by (rewrite Eloc; discriminate).
  clear Eloc c rest.
  destruct (collected w (datastore_uri self) location) as [e|data] eqn:Hcollected.
  { rewrite (run_loader_error self w location e Hloc Hpresent Hcollected).
    cbn [fst snd rng clock collected log]. repeat split.
    eexists. split; [reflexivity|]. right. left.
    exists location. split; [reflexivity|]. right. now exists e. }
  destruct data as [|r0 rows] eqn:Edata.
  { rewrite (run_empty self w location [] Hloc Hpresent Hcollected eq_refl).
    cbn [fst snd rng clock collected log]. repeat split.
    eexists. split; [reflexivity|]. right. left.
    exists location. split; [reflexivity|]. now left. }
  rewrite <- Edata in *.
  assert (Hdata : data <> []) by (rewrite Edata; discriminate).
  destruct (run_nonempty_cost self w location data Hloc Hpresent Hcollected
              keeps_or_draws 1 2 Hdata (label_row_cost _))
    as (labelled & _ & Hemits & Hclock & Hstore & Htape & _).
  split; [exact Hclock|]. split; [exact Hstore|]. split; [exact Htape|].
  unfold emits in Hemits.
  destruct (nth_error (split 47 location) 2) as [bucket|];
    destruct Hemits as [Hout Hlog]; eexists; (split; [exact Hlog|]).
  - right. right. right. exists location, (payload_of labelled), bucket. auto.
  - right. right. left. exists location. auto.
Qed.

(** X7.  For a ground-truth location [s3://<bucket>/<rest>], the object is
    put in [<bucket>] (the text between [s3://] and the next slash), and its
    key is [<rest>], exactly as it is written after that slash, followed
    by the date text and [.jsonl]. *)
Theorem s3_location_gives_bucket_and_key
    (self : Labeling) (w : world) (bucket rest : pystr) (data : DataFrame) :
  let location := py "s3://" ++ bucket ++ 47 :: rest in
  ground_truth_uri self = Some location ->
  ~ In 47 bucket ->
  collected w (datastore_uri self) location = inr data ->
  data <> [] ->
  exists labelled,
    fst (_label_sagemaker_data self w) = inr tt
    /\ log (snd (_label_sagemaker_data self w)) =
         log w ++ [ BotoClient (py "s3");
                    LoadCollected (datastore_uri self) location;
                    UtcNow;
                    PutObject (payload_of labelled) bucket
                              (rest ++ strftime (clock w) ++ py ".jsonl") ].
Proof.
  intros location Hloc Hbucket Hcollected Hdata.
  assert (Hpresent : location <> []) by discriminate.
  destruct (run_nonempty self w location data Hloc Hpresent Hcollected
              keeps_or_draws Hdata (label_row_spec _))
    as (labelled & _ & Hemits).
  exists labelled. unfold emits in Hemits.
  destruct (bucket_of_s3_location bucket rest Hbucket) as [Hb Hkey].
  fold location in Hb, Hkey. rewrite Hb, Hkey in Hemits. exact Hemits.
Qed.

(** X8.  On collected data that is not empty, the run ends in the
    [IndexError] of the bucket subscript exactly when the ground-truth
    location has fewer than two slashes, and returns normally exactly when it
    has two or more. *)
Theorem bucket_needs_two_slashes
    (self : Labeling) (w : world) (location : pystr) (data : DataFrame) :
  ground_truth_uri self = Some location ->
  location <> [] ->
  collected w (datastore_uri self) location = inr data ->
  data <> [] ->
  let r := _label_sagemaker_data self w in
  (fst r = inl (Exn IndexError (py "list index out of range"))
   <-> (count_occ N.eq_dec location 47%N < 2)%nat)
  /\ (fst r = inr tt <-> (2 <= count_occ N.eq_dec location 47%N)%nat)
  /\ ((count_occ N.eq_dec location 47%N < 2)%nat ->
      log (snd r) = log w ++ [ BotoClient (py "s3");
                               LoadCollected (datastore_uri self) location;
                               UtcNow ]).
Proof.
  intros Hloc Hpresent Hcollected Hdata r. subst r.
  destruct (run_nonempty self w location data Hloc Hpresent Hcollected
              keeps_or_draws Hdata (label_row_spec _))
    as (labelled & _ & Hemits).
  unfold emits in Hemits. pose proof (no_bucket_iff location) as Hiff.
  destruct (nth_error (split 47 location) 2) as [bucket|];
    destruct Hemits as [Hout Hlog]; rewrite Hout.
  - assert (Hcount : (2 <= count_occ N.eq_dec location 47%N)%nat).
    { destruct (Nat.lt_ge_cases (count_occ N.eq_dec location 47%N) 2) as [Hlt|Hge];
        [|exact Hge].
      apply Hiff in Hlt. discriminate Hlt. }
    split; [|split].
    + split; [discriminate | lia].
    + split; auto.
    + lia.
  - assert (Hcount : (count_occ N.eq_dec location 47%N < 2)%nat)
      by (now apply Hiff).
    split; [|split].
    + split; auto.
    + split; [discriminate | lia].
    + intros _. exact Hlog.
Qed.

(** ** The order of the steps *)

Lemma run_steps_from_start (fuel : nat) (self : Labeling) (w : world) :
  (3 <= fuel)%nat ->
  run_steps fuel StartStep self w =
    match label self w with
    | (inl e, w') => (inl e, w')
    | (inr _, w') => (inr (Some [StartStep; LabelStep; EndStep]), w')
    end.
Proof.
  intros Hfuel.
  destruct fuel as [|[|[|fuel]]]; try lia.
  cbv [run_steps run_step start end_ bind ret option_map].
  destruct (label self w) as [[e|[]] w']; reflexivity.
Qed.


(** X10.  On a datastore that is not an [s3://] location the flow calls no
    collaborator at all, whatever the other parameters: the world is left as
    it was; the three steps run to the end when the datastore is a
    [sqlite://] location, and the flow stops in [label] with a [ValueError]
    when it is not. *)
Theorem flow_without_s3_datastore_touches_nothing
    (fuel : nat) (self : Labeling) (w : world) :
  (3 <= fuel)%nat ->
  startswith (datastore_uri self) (py "s3://") = false ->
  let r := run_steps fuel StartStep self w in
  snd r = w
  /\ (startswith (datastore_uri self) (py "sqlite://") = true ->
      fst r = inr (Some [StartStep; LabelStep; EndStep]))
  /\ (startswith (datastore_uri self) (py "sqlite://") = false ->
      exists msg, fst r = inl (Exn ValueError msg)).
Proof.
  intros Hfuel Hs3 r. subst r. rewrite run_steps_from_start by assumption.
  unfold label. rewrite Hs3.
  destruct (startswith (datastore_uri self) (py "sqlite://")).
  - cbn [ret fst snd]. repeat split. discriminate.
  - cbn [raise fst snd]. split; [reflexivity|]. split; [discriminate|].
    intros _. eexists. reflexivity.
Qed.

(** ** Keys and upload times *)

Section KeyTimes.

Lemma below_forall (P : N -> bool) (bound : N) :
  forallb P (map N.of_nat (seq 0 (N.to_nat bound))) = true ->
  forall n, n < bound -> P n = true.
Proof.
  rewrite forallb_forall. intros H n Hn. apply H.
  rewrite <- (N2Nat.id n). apply in_map, in_seq. lia.
Qed.

Lemma py_inj (s s' : string) : py s = py s' -> s = s'.
Proof.
  unfold py. intros H.
  rewrite <- (string_of_list_ascii_of_string s),
          <- (string_of_list_ascii_of_string s').
  f_equal. revert H.
  generalize (list_ascii_of_string s) as l, (list_ascii_of_string s') as l'.
  induction l as [|a l IH]; intros [|a' l']; simpl; try discriminate; auto.
  intros [= Ha Hl]. f_equal; [|now apply IH].
  rewrite <- (ascii_N_embedding a), <- (ascii_N_embedding a'). now rewrite Ha.
Qed.

Lemma decimal_inj (n n' : N) : decimal n = decimal n' -> n = n'.
Proof.
  unfold decimal. intros H%py_inj.
  apply DecimalN.Unsigned.to_uint_inj.
  assert (E : NilZero.uint_of_string (NilZero.string_of_uint (N.to_uint n))
              = NilZero.uint_of_string (NilZero.string_of_uint (N.to_uint n')))
    by now rewrite H.
  assert (Hnonnil : forall m, N.to_uint m <> Decimal.Nil).
  { intros [|p]; [discriminate | apply DecimalPos.Unsigned.to_uint_nonnil]. }
  rewrite !NilZero.usu in E by apply Hnonnil. now injection E.
Qed.

Lemma pad2_length (n : N) : n < 100 -> List.length (pad2 n) = 2%nat.
Proof.
  intros Hn. apply Nat.eqb_eq.
  apply (below_forall (fun n => Nat.eqb (List.length (pad2 n)) 2) 100);
    [vm_compute; reflexivity | exact Hn].
Qed.

Lemma year_length (y : N) :
  1000 <= y <= 9999 -> List.length (decimal y) = 4%nat.
Proof.
  intros Hy.
  assert (H : (y <? 1000) || Nat.eqb (List.length (decimal y)) 4 = true).
  { apply (below_forall
             (fun y => (y <? 1000) || Nat.eqb (List.length (decimal y)) 4) 10000);
      [vm_compute; reflexivity | lia]. }
  apply orb_true_iff in H as [H|H]; [apply N.ltb_lt in H; lia|].
  now apply Nat.eqb_eq.
Qed.

Lemma pad2_inj (n n' : N) : n < 100 -> n' < 100 -> pad2 n = pad2 n' -> n = n'.
Proof.
  intros Hn Hn' E.
  assert (H : forallb (fun m => implb (PyStr.eqb (pad2 n) (pad2 m)) (n =? m))
                      (map N.of_nat (seq 0 (N.to_nat 100))) = true).
  { apply (below_forall
             (fun n => forallb
                (fun m => implb (PyStr.eqb (pad2 n) (pad2 m)) (n =? m))
                (map N.of_nat (seq 0 (N.to_nat 100)))) 100);
      [vm_compute; reflexivity | exact Hn]. }
  pose proof (below_forall _ 100 H n' Hn') as Himp. cbv beta in Himp.
  rewrite (proj2 (eqb_eq _ _) E) in Himp. now apply N.eqb_eq.
Qed.

Lemma app_same_length {A} (a a' b b' : list A) :
  List.length a = List.length a' -> a ++ b = a' ++ b' -> a = a' /\ b = b'.
Proof.
  revert a'. induction a as [|x a IH]; intros [|x' a']; simpl;
    try discriminate; auto.
  intros [= Hlen] [= -> E]. destruct (IH a' Hlen E) as [-> ->]. auto.
Qed.

Lemma strftime_inj (t t' : datetime) :
  calendar_time t -> calendar_time t' -> strftime t = strftime t' -> t = t'.
Proof.
  intros (Hy & Hm & Hd & Hh & Hmin & Hs) (Hy' & Hm' & Hd' & Hh' & Hmin' & Hs').
  unfold strftime. change (py "/") with [47]. intros E.
  apply app_same_length in E as [Ey E];
    [|now rewrite !year_length]. injection E as E.
  apply app_same_length in E as [Em E];
    [|rewrite !pad2_length; [reflexivity | lia | lia]]. injection E as E.
  apply app_same_length in E as [Ed E];
    [|rewrite !pad2_length; [reflexivity | lia | lia]]. injection E as E.
  apply app_same_length in E as [Eh E];
    [|rewrite !pad2_length; [reflexivity | lia | lia]]. injection E as E.
  apply app_same_length in E as [Emin Es];
    [|rewrite !pad2_length; [reflexivity | lia | lia]].
  apply decimal_inj in Ey.
  apply pad2_inj in Em, Ed, Eh, Emin, Es; try lia.
  destruct t, t'. simpl in *. congruence.
Qed.

End KeyTimes.

(** X11.  For one location, two uploads get the same key exactly when they
    are made in the same second of the clock: a later run within the second
    writes over the object of the earlier one, and runs in different
    seconds never share a key. *)
Theorem same_key_only_in_the_same_second
    (location : pystr) (t t' : datetime) :
  calendar_time t -> calendar_time t' ->
  (destination_key location t = destination_key location t' <-> t = t').
Proof.
  intros Ht Ht'. split; [|now intros ->].
  unfold destination_key. intros E.
  apply app_inv_head in E. apply app_inv_tail in E.
  now apply strftime_inj.
Qed.

(** ** Substituted labels and the predictions of the model *)

Section Ignored.

Variable quality : Q.
Hypothesis Hquality : (quality <= 0)%Q.

(** Two runs of a loop on lists related item by item, from worlds with the
    same generator, give the same results and the same generator when the
    body does so on related items. *)
Lemma for_each_related {A B} (S : A -> A -> Prop) (body : A -> M B) :
  (forall x x' w w', S x x' -> rng w = rng w' ->
     exists y w1 w1',
       body x w = (inr y, w1) /\ body x' w' = (inr y, w1')
       /\ rng w1 = rng w1' /\ frame w w1 /\ frame w' w1') ->
  forall xs xs', Forall2 S xs xs' ->
  forall w w', rng w = rng w' ->
    exists ys w1 w1',
      for_each xs body w = (inr ys, w1) /\ for_each xs' body w' = (inr ys, w1')
      /\ rng w1 = rng w1' /\ frame w w1 /\ frame w' w1'.
Proof.
  intros Hbody xs xs'. induction 1 as [|x x' xs xs' Hx _ IH]; intros w w' Hrng.
  - exists [], w, w'.
    split; [reflexivity|]. split; [reflexivity|]. split; [exact Hrng|].
    split; apply frame_refl.
  - destruct (Hbody x x' w w' Hx Hrng) as (y & w1 & w1' & E & E' & Hr & F & F').
    destruct (IH w1 w1' Hr) as (ys & w2 & w2' & E2 & E2' & Hr2 & F2 & F2').
    exists (y :: ys), w2, w2'. simpl. unfold bind. rewrite E, E', E2, E2'.
    split; [reflexivity|]. split; [reflexivity|]. split; [exact Hr2|].
    split; eapply frame_trans; eassumption.
Qed.

Lemma label_row_ignores_row (r r' : row) (w w' : world) :
  rng w = rng w' ->
  exists p w1 w1',
    label_row quality r w = (inr p, w1) /\ label_row quality r' w' = (inr p, w1')
    /\ rng w1 = rng w1' /\ frame w w1 /\ frame w' w1'.
Proof.
  intros Hrng.
  assert (Hge : forall k, k < Npos two_pow_53 ->
                  Qltb (Z.of_N k # two_pow_53) quality = false).
  { intros k Hk.
    assert (Hk' : (0 <= Z.of_N k < Zpos two_pow_53)%Z) by lia.
    unfold Qltb, Qle in *. cbn [Qnum Qden] in *. apply Z.ltb_ge.
    generalize dependent (Zpos two_pow_53). intros top Hk'.
    assert (Hq' : (Qnum quality <= 0)%Z) by lia.
    nia. }
  unfold label_row, bind, random_random. rewrite <- Hrng.
  rewrite Hge by (apply N.mod_lt; discriminate).
  unfold random_choice, labels. cbn [rng with_rng tape cursor].
  eexists _, _, _. split; [reflexivity|]. split; [reflexivity|].
  split; [reflexivity|]. split; repeat split.
Qed.

Lemma label_group_ignores_rows (g g' : pystr * DataFrame) (w w' : world) :
  fst g = fst g' /\ List.length (snd g) = List.length (snd g') ->
  rng w = rng w' ->
  exists line w1 w1',
    label_group quality g w = (inr line, w1)
    /\ label_group quality g' w' = (inr line, w1')
    /\ rng w1 = rng w1' /\ frame w w1 /\ frame w' w1'.
Proof.
  intros [Hkey Hlen] Hrng. unfold label_group, bind.
  assert (Hrows : Forall2 (fun _ _ => True) (snd g) (snd g')).
  { clear -Hlen. revert Hlen. generalize (snd g) as l, (snd g') as l'.
    induction l; intros [|? l']; simpl; try discriminate; constructor; auto. }
  destruct (for_each_related (fun _ _ => True) (label_row quality)
              (fun r r' w0 w0' _ => label_row_ignores_row r r' w0 w0')
              _ _ Hrows w w' Hrng)
    as (ps & w1 & w1' & E & E' & Hr & F & F').
  rewrite E, E', Hkey. eexists _, w1, w1'.
  split; [reflexivity|]. split; [reflexivity|]. auto.
Qed.

Lemma get_group_length (data : DataFrame) (k : pystr) :
  List.length (get_group data k)
  = List.length (filter (fun i => PyStr.eqb i k) (map event_id data)).
Proof.
  unfold get_group. induction data as [|r data IH]; simpl; [reflexivity|].
  destruct (PyStr.eqb (event_id r) k); simpl; now rewrite IH.
Qed.

Lemma groupby_same_event_ids (data data' : DataFrame) :
  map event_id data = map event_id data' ->
  Forall2 (fun g g' => fst g = fst g'
                       /\ List.length (snd g) = List.length (snd g'))
          (groupby data) (groupby data').
Proof.
  intros Hids. unfold groupby, group_keys. rewrite <- Hids.
  induction (fold_right insert_key [] (map event_id data)) as [|k keys IH];
    constructor; [|exact IH].
  cbn [fst snd]. split; [reflexivity|].
  now rewrite !get_group_length, Hids.
Qed.

End Ignored.

Lemma run_after_labelling
    (self : Labeling) (w : world) (location : pystr) (data : DataFrame)
    (lines : list pystr) (w2 : world) :
  ground_truth_uri self = Some location ->
  location <> [] ->
  collected w (datastore_uri self) location = inr data ->
  data <> [] ->
  for_each (groupby data) (label_group (ground_truth_quality self))
    (record_event (LoadCollected (datastore_uri self) location)
       (record_event (BotoClient (py "s3")) w))
  = (inr lines, w2) ->
  _label_sagemaker_data self w =
    match nth_error (split 47 location) 2 with
    | None => raise (Exn IndexError (py "list index out of range"))
    | Some bucket =>
        put_object (join [10] lines) bucket (destination_key location (clock w2))
    end (record_event UtcNow w2).
Proof.
  intros Hloc Hpresent Hcollected Hdata.
  pose (w1 := record_event (LoadCollected (datastore_uri self) location)
                (record_event (BotoClient (py "s3")) w)).
  fold w1. intros E.
  rewrite (run_on_data self w location data Hloc Hpresent Hcollected).
  unfold bind at 1, boto3_client. unfold bind at 1, load_unlabeled_collected_data.
  cbn [collected record_event]. rewrite Hcollected.
  destruct data as [|r0 rest]; [congruence|]. cbn [empty].
  fold w1. unfold bind at 1. rewrite E. reflexivity.
Qed.

(** X12.  With a quality of zero or less the run does not look at the
    predictions: on two frames with the same column of event ids, from
    worlds with the same generator, clock and log, the two runs end the same
    way, make the same calls with the same payload and leave the same
    generator. *)
Theorem substituted_labels_ignore_the_predictions
    (self : Labeling) (w w' : world) (location : pystr)
    (data data' : DataFrame) :
  ground_truth_uri self = Some location ->
  location <> [] ->
  collected w (datastore_uri self) location = inr data ->
  collected w' (datastore_uri self) location = inr data' ->
  map event_id data = map event_id data' ->
  rng w' = rng w -> clock w' = clock w -> log w' = log w ->
  (ground_truth_quality self <= 0)%Q ->
  fst (_label_sagemaker_data self w') = fst (_label_sagemaker_data self w)
  /\ log (snd (_label_sagemaker_data self w'))
     = log (snd (_label_sagemaker_data self w))
  /\ rng (snd (_label_sagemaker_data self w'))
     = rng (snd (_label_sagemaker_data self w)).
Proof.
  intros Hloc Hpresent Hcollected Hcollected' Hids Hrng Hclock Hlog Hq.
  destruct data as [|r0 rest] eqn:Edata.
  { destruct data' as [|? ?]; [|discriminate Hids].
    rewrite (run_empty self w location [] Hloc Hpresent Hcollected eq_refl).
    rewrite (run_empty self w' location [] Hloc Hpresent Hcollected' eq_refl).
    cbn [fst snd log rng]. rewrite Hlog, Hrng. auto. }
  destruct data' as [|r0' rest'] eqn:Edata'; [discriminate Hids|].
  rewrite <- Edata in Hcollected, Hids. rewrite <- Edata' in Hcollected', Hids.
  assert (Hdata : data <> []) by (rewrite Edata; discriminate).
  assert (Hdata' : data' <> []) by (rewrite Edata'; discriminate).
  clear Edata Edata' r0 rest r0' rest'.
  set (w1 := record_event (LoadCollected (datastore_uri self) location)
               (record_event (BotoClient (py "s3")) w)).
  set (w1' := record_event (LoadCollected (datastore_uri self) location)
                (record_event (BotoClient (py "s3")) w')).
  destruct (for_each_related
              (fun g g' => fst g = fst g'
                           /\ List.length (snd g) = List.length (snd g'))
              (label_group (ground_truth_quality self))
              (label_group_ignores_rows (ground_truth_quality self) Hq)
              _ _ (groupby_same_event_ids data data' Hids) w1 w1')
    as (lines & w2 & w2' & E & E' & Hr & (Fc & _ & Fl) & (Fc' & _ & Fl'));
    [unfold w1, w1'; cbn [record_event rng]; congruence|].
  rewrite (run_after_labelling self w location data lines w2
             Hloc Hpresent Hcollected Hdata E).
  rewrite (run_after_labelling self w' location data' lines w2'
             Hloc Hpresent Hcollected' Hdata' E').
  rewrite Fc, Fc'. unfold w1, w1'. cbn [record_event clock]. rewrite Hclock.
  destruct (nth_error (split 47 location) 2) as [bucket|];
    cbn [fst snd put_object raise record_event log rng];
    rewrite Fl, Fl', Hr; unfold w1, w1'; cbn [record_event log];
    rewrite Hlog; auto.
Qed.

(** ** The further properties at work on concrete runs *)

Section FurtherWitnesses.

Import Demo.

Lemma as_many_labels_as_rows_witness :
  let self := flow (Some ground_truth) (4 # 5) in
  let w := world_of mixed_rows 3000000000000000 in
  (ground_truth_uri self = Some ground_truth
   /\ ground_truth <> []
   /\ collected w (datastore_uri self) ground_truth = inr mixed_rows
   /\ mixed_rows <> [])
  /\ exists labelled,
       emits self w ground_truth (payload_of labelled)
       /\ map fst labelled = map fst (groupby mixed_rows)
       /\ List.length (List.concat (map snd labelled)) = 4%nat.
Proof.
  cbv zeta.
  split; [repeat split; try reflexivity; discriminate|].
  apply (as_many_labels_as_rows
           (flow (Some ground_truth) (4 # 5))
           (world_of mixed_rows 3000000000000000) ground_truth mixed_rows);
    try reflexivity; discriminate.
Defined.

Lemma generator_moves_once_or_twice_per_row_witness :
  let self := flow (Some ground_truth) (4 # 5) in
  let w := world_of mixed_rows 3000000000000000 in
  let w' := snd (_label_sagemaker_data self w) in
  (ground_truth_uri self = Some ground_truth
   /\ ground_truth <> []
   /\ collected w (datastore_uri self) ground_truth = inr mixed_rows)
  /\ tape (rng w') = tape (rng w)
  /\ (cursor (rng w) + 4 <= cursor (rng w') <= cursor (rng w) + 2 * 4)%nat.
Proof.
  cbv zeta.
  split; [repeat split; try reflexivity; discriminate|].
  apply (generator_moves_once_or_twice_per_row
           (flow (Some ground_truth) (4 # 5))
           (world_of mixed_rows 3000000000000000) ground_truth mixed_rows);
    try reflexivity; discriminate.
Defined.

Lemma quality_of_one_or_more_keeps_witness :
  let self := flow (Some ground_truth) (3 # 2) in
  let w := world_of mixed_rows 3000000000000000 in
  (ground_truth_uri self = Some ground_truth
   /\ ground_truth <> []
   /\ collected w (datastore_uri self) ground_truth = inr mixed_rows
   /\ mixed_rows <> []
   /\ (1 <= ground_truth_quality self)%Q)
  /\ emits self w ground_truth (payload_of (original_predictions mixed_rows))
  /\ cursor (rng (snd (_label_sagemaker_data self w))) = 4%nat.
Proof.
  cbv zeta.
  split; [repeat split; try reflexivity; discriminate|].
  apply (quality_of_one_or_more_keeps
           (flow (Some ground_truth) (3 # 2))
           (world_of mixed_rows 3000000000000000) ground_truth mixed_rows);
    try reflexivity; discriminate.
Defined.

Lemma quality_of_zero_or_less_draws_witness :
  let self := flow (Some ground_truth) (- 1 # 2) in
  let w := world_of mixed_rows 3000000000000000 in
  (ground_truth_uri self = Some ground_truth
   /\ ground_truth <> []
   /\ collected w (datastore_uri self) ground_truth = inr mixed_rows
   /\ mixed_rows <> []
   /\ (ground_truth_quality self <= 0)%Q)
  /\ (exists labelled,
        Forall2 (fun g l => fst l = fst g
                            /\ Forall2 (fun _ p => In p labels) (snd g) (snd l))
                (groupby mixed_rows) labelled
        /\ emits self w ground_truth (payload_of labelled))
  /\ cursor (rng (snd (_label_sagemaker_data self w))) = 8%nat.
Proof.
  cbv zeta.
  split; [repeat split; try reflexivity; discriminate|].
  apply (quality_of_zero_or_less_draws
           (flow (Some ground_truth) (- 1 # 2))
           (world_of mixed_rows 3000000000000000) ground_truth mixed_rows);
    try reflexivity; discriminate.
Defined.

Lemma loader_exception_passes_through_witness :
  let self := flow (Some ground_truth) (4 # 5) in
  let e := Exn JSONDecodeError (py "Expecting value: line 1 column 1 (char 0)") in
  let w := {| rng := rng (world_of [] 1); clock := march_9;
              collected := fun _ _ => inl e; log := [] |} in
  (ground_truth_uri self = Some ground_truth
   /\ ground_truth <> []
   /\ collected w (datastore_uri self) ground_truth = inl e)
  /\ _label_sagemaker_data self w =
       (inl e,
        {| rng := rng w; clock := clock w; collected := collected w;
           log := [ BotoClient (py "s3");
                    LoadCollected (py "s3://bucket/datastore") ground_truth ] |}).
Proof.
  cbv zeta.
  split; [repeat split; try reflexivity; discriminate|].
  apply (loader_exception_passes_through
           (flow (Some ground_truth) (4 # 5))
           {| rng := rng (world_of [] 1); clock := march_9;
              collected := fun _ _ =>
                inl (Exn JSONDecodeError
                       (py "Expecting value: line 1 column 1 (char 0)"));
              log := [] |}
           ground_truth
           (Exn JSONDecodeError (py "Expecting value: line 1 column 1 (char 0)")));
    try reflexivity; discriminate.
Defined.

Lemma s3_location_gives_bucket_and_key_witness :
  let self := flow (Some ground_truth) (4 # 5) in
  let w := world_of mixed_rows 3000000000000000 in
  (ground_truth_uri self = Some (py "s3://" ++ py "bucket" ++ 47 :: py "ground-truth/")
   /\ ~ In 47 (py "bucket")
   /\ collected w (datastore_uri self) ground_truth = inr mixed_rows
   /\ mixed_rows <> [])
  /\ exists labelled,
       fst (_label_sagemaker_data self w) = inr tt
       /\ log (snd (_label_sagemaker_data self w)) =
            [ BotoClient (py "s3");
              LoadCollected (py "s3://bucket/datastore") ground_truth;
              UtcNow;
              PutObject (payload_of labelled) (py "bucket")
                        (py "ground-truth/2024/03/09/07/0502.jsonl") ].
Proof.
  cbv zeta.
  assert (Hbucket : ~ In 47 (py "bucket"))
    by (intros H; repeat (destruct H as [H|H]; [discriminate H|]); exact H).
  split; [repeat split; try reflexivity; try discriminate; exact Hbucket|].
  apply (s3_location_gives_bucket_and_key
           (flow (Some ground_truth) (4 # 5))
           (world_of mixed_rows 3000000000000000)
           (py "bucket") (py "ground-truth/") mixed_rows);
    try reflexivity; try discriminate; exact Hbucket.
Defined.

Lemma bucket_needs_two_slashes_witness :
  let self := flow (Some (py "bucket/ground-truth")) (4 # 5) in
  let w := world_of mixed_rows 3000000000000000 in
  let r := _label_sagemaker_data self w in
  (ground_truth_uri self = Some (py "bucket/ground-truth")
   /\ py "bucket/ground-truth" <> []
   /\ collected w (datastore_uri self) (py "bucket/ground-truth") = inr mixed_rows
   /\ mixed_rows <> []
   /\ count_occ N.eq_dec (py "bucket/ground-truth") 47%N = 1%nat)
  /\ fst r = inl (Exn IndexError (py "list index out of range"))
  /\ log (snd r) =
       [ BotoClient (py "s3");
         LoadCollected (py "s3://bucket/datastore") (py "bucket/ground-truth");
         UtcNow ].
Proof.
  cbv zeta.
  split; [repeat split; try reflexivity; discriminate|].
  destruct (bucket_needs_two_slashes
              (flow (Some (py "bucket/ground-truth")) (4 # 5))
              (world_of mixed_rows 3000000000000000)
              (py "bucket/ground-truth") mixed_rows)
    as (Herror & _ & Hlog);
    try reflexivity; try discriminate.
  split; [apply Herror | apply Hlog]; vm_compute; lia.
Defined.


Lemma flow_without_s3_datastore_touches_nothing_witness :
  let self := {| datastore_uri := py "sqlite:///data/penguins.db";
                 ground_truth_uri := None;
                 ground_truth_quality := 4 # 5 |} in
  let w := world_of mixed_rows 1 in
  ((3 <= 3)%nat
   /\ startswith (datastore_uri self) (py "s3://") = false
   /\ startswith (datastore_uri self) (py "sqlite://") = true)
  /\ snd (run_steps 3 StartStep self w) = w
  /\ fst (run_steps 3 StartStep self w)
     = inr (Some [StartStep; LabelStep; EndStep]).
Proof.
  cbv zeta.
  split; [repeat split; try reflexivity; lia|].
  destruct (flow_without_s3_datastore_touches_nothing 3
              {| datastore_uri := py "sqlite:///data/penguins.db";
                 ground_truth_uri := None;
                 ground_truth_quality := 4 # 5 |}
              (world_of mixed_rows 1))
    as (Hworld & Hsqlite & _); [lia | reflexivity |].
  split; [exact Hworld | exact (Hsqlite eq_refl)].
Defined.

Lemma same_key_only_in_the_same_second_witness :
  let later := {| year := 2024; month := 3; day := 9;
                  hour := 7; minute := 5; second := 3 |} in
  (calendar_time march_9 /\ calendar_time later)
  /\ destination_key ground_truth march_9 <> destination_key ground_truth later.
Proof.
  cbv zeta.
  assert (H : calendar_time march_9) by (unfold calendar_time; simpl; lia).
  assert (H' : calendar_time {| year := 2024; month := 3; day := 9;
                                hour := 7; minute := 5; second := 3 |})
    by (unfold calendar_time; simpl; lia).
  split; [split; assumption|].
  intros E.
  apply (same_key_only_in_the_same_second ground_truth _ _ H H') in E.
  discriminate E.
Defined.

Lemma substituted_labels_ignore_the_predictions_witness :
  let self := flow (Some ground_truth) 0 in
  let other := [ Row (py "b") (py "Chinstrap"); Row (py "a") (py "Gentoo");
                 Row (py "b") (py "Gentoo"); Row (py "c") (py "Adelie") ] in
  let w := world_of mixed_rows 7 in
  let w' := world_of other 7 in
  (ground_truth_uri self = Some ground_truth
   /\ ground_truth <> []
   /\ collected w (datastore_uri self) ground_truth = inr mixed_rows
   /\ collected w' (datastore_uri self) ground_truth = inr other
   /\ map event_id mixed_rows = map event_id other
   /\ rng w' = rng w /\ clock w' = clock w /\ log w' = log w
   /\ (ground_truth_quality self <= 0)%Q)
  /\ fst (_label_sagemaker_data self w') = fst (_label_sagemaker_data self w)
  /\ log (snd (_label_sagemaker_data self w'))
     = log (snd (_label_sagemaker_data self w))
  /\ rng (snd (_label_sagemaker_data self w'))
     = rng (snd (_label_sagemaker_data self w)).
Proof.
  cbv zeta.
  split; [repeat split; try reflexivity; discriminate|].
  apply (substituted_labels_ignore_the_predictions
           (flow (Some ground_truth) 0)
           (world_of mixed_rows 7)
           (world_of [ Row (py "b") (py "Chinstrap"); Row (py "a") (py "Gentoo");
                       Row (py "b") (py "Gentoo"); Row (py "c") (py "Adelie") ] 7)
           ground_truth mixed_rows
           [ Row (py "b") (py "Chinstrap"); Row (py "a") (py "Gentoo");
             Row (py "b") (py "Gentoo"); Row (py "c") (py "Adelie") ]);
    try reflexivity; discriminate.
Defined.

End FurtherWitnesses.
